(** * EU5 modding data: format parsers and search engine

    A shallow embedding of the parsing-and-search core of the repository:
    - [scripts/convert_data.py]: the three format parsers and the index builder,
    - [src/data_handler.py]: class [DataHandler], the search engine of the server,
    - [scripts/data_searcher.py]: class [DataSearcher], the stand-alone searcher.

    Text is modelled as [string]; a character stands for the code point of the
    same number (U+0000 to U+00FF), so the character classes below are those
    of Python on that range.  A file is modelled by its decoded content, after
    the newline translation of text mode. *)

From Stdlib Require Import ZArith QArith Ascii String List Bool Lia.
From stdpp Require Import base option list sorting strings gmap.

Local Open Scope string_scope.
Local Open Scope list_scope.
Local Open Scope nat_scope.

(** ** Python built-ins on [str] *)

Module Py.

(** [str.isspace] on one character; it is also the class [\s] of [re]. *)
Definition isspace (c : ascii) : bool :=
  let n := nat_of_ascii c in
  ((9 <=? n) && (n <=? 13)) || ((28 <=? n) && (n <=? 32))
  || (n =? 133) || (n =? 160).

(** [str.isalnum] on one character, or the underscore: the class [\w]. *)
Definition isword (c : ascii) : bool :=
  let n := nat_of_ascii c in
  ((48 <=? n) && (n <=? 57)) || ((65 <=? n) && (n <=? 90))
  || ((97 <=? n) && (n <=? 122)) || (n =? 95)
  || (n =? 170) || (n =? 178) || (n =? 179) || (n =? 181) || (n =? 185)
  || (n =? 186) || ((188 <=? n) && (n <=? 190))
  || ((192 <=? n) && (n <=? 214)) || ((216 <=? n) && (n <=? 246))
  || (248 <=? n).

Definition lower_char (c : ascii) : ascii :=
  let n := nat_of_ascii c in
  if ((65 <=? n) && (n <=? 90))
     || ((192 <=? n) && (n <=? 222) && negb (n =? 215))
  then ascii_of_nat (n + 32) else c.

(** [s.lower()] *)
Fixpoint lower (s : string) : string :=
  match s with
  | EmptyString => EmptyString
  | String c s' => String (lower_char c) (lower s')
  end.

(** [s.lstrip()], [s.rstrip()], [s.strip()] *)
Fixpoint lstrip (s : string) : string :=
  match s with
  | EmptyString => EmptyString
  | String c s' => if isspace c then lstrip s' else s
  end.

Fixpoint rstrip (s : string) : string :=
  match s with
  | EmptyString => EmptyString
  | String c s' =>
      match rstrip s' with
      | EmptyString => if isspace c then EmptyString else String c EmptyString
      | r => String c r
      end
  end.

Definition strip (s : string) : string := rstrip (lstrip s).

(** [s.startswith(p)] *)
Definition startswith (s p : string) : bool := String.prefix p s.

(** [sub in s] *)
Fixpoint contains (sub s : string) : bool :=
  String.prefix sub s
  || match s with
     | EmptyString => false
     | String _ s' => contains sub s'
     end.

(** [s.split(sep)] for a non-empty [sep]: the pieces between the leftmost,
    non-overlapping occurrences of [sep].  [skip] counts the characters of
    an occurrence that are still to be passed over; the head of the result
    is the piece being read. *)
Fixpoint split_from (sep s : string) (skip : nat) : list string :=
  match s with
  | EmptyString => [EmptyString]
  | String c s' =>
      match skip with
      | S k => split_from sep s' k
      | O =>
          if String.prefix sep s
          then EmptyString :: split_from sep s' (String.length sep - 1)
          else match split_from sep s' 0 with
               | p :: ps => String c p :: ps
               | [] => [String c EmptyString]
               end
      end
  end.

Definition split (s sep : string) : list string := split_from sep s 0.

(** [s.replace(old, new)] for a non-empty [old]. *)
Fixpoint replace_from (old new s : string) (skip : nat) : string :=
  match s with
  | EmptyString => EmptyString
  | String c s' =>
      match skip with
      | S k => replace_from old new s' k
      | O =>
          if String.prefix old s
          then new +:+ replace_from old new s' (String.length old - 1)
          else String c (replace_from old new s' 0)
      end
  end.

Definition replace (s old new : string) : string := replace_from old new s 0.

(** [sep.join(l)] *)
Fixpoint join (sep : string) (l : list string) : string :=
  match l with
  | [] => EmptyString
  | [x] => x
  | x :: l' => x +:+ sep +:+ join sep l'
  end.

(** [f.readlines()]: the lines with their terminators; the last line has
    none when the text does not end with a newline. *)
Fixpoint readlines (s : string) : list string :=
  match s with
  | EmptyString => []
  | String c s' =>
      if Ascii.eqb c "010"%char then String c EmptyString :: readlines s'
      else match readlines s' with
           | l :: ls => String c l :: ls
           | [] => [String c EmptyString]
           end
  end.

(** The truth value of a string: [if s:] *)
Definition truthy (s : string) : bool :=
  match s with EmptyString => false | _ => true end.

(** [l[:limit]] for any integer [limit]: a negative bound counts from the
    end of the list. *)
Definition slice_to {A} (l : list A) (limit : Z) : list A :=
  if (limit <? 0)%Z
  then take (length l - Z.to_nat (- limit)) l
  else take (Z.to_nat limit) l.

(** [Path(p).stem] for a path written with forward slashes: the last
    component without its last suffix. *)
Definition basename (p : string) : string := List.last (split p "/") EmptyString.

Fixpoint rfind_dot (s : string) (i : nat) : option nat :=
  match s with
  | EmptyString => None
  | String c s' =>
      match rfind_dot s' (S i) with
      | Some j => Some j
      | None => if Ascii.eqb c "."%char then Some i else None
      end
  end.

Definition stem (p : string) : string :=
  let n := basename p in
  match rfind_dot n 0 with
  | Some i => if (0 <? i) && (i <? String.length n - 1)
              then String.substring 0 i n else n
  | None => n
  end.

End Py.

(** ** The fragment of [re] the parsers use

    A pattern is a sequence of atoms; an atom is a character class with a
    quantifier, inside a capturing group or not.  Matching backtracks as
    [re] does: a greedy quantifier tries the longest run first, a lazy one
    the shortest, and the first way that lets the rest of the pattern match
    is the result. *)

Module Re.

Inductive quant := Once | Star | Plus | LazyStar.

Record atom := Atom { cls : ascii -> bool; q : quant; captures : bool }.

Definition lit (c : ascii) : atom := Atom (Ascii.eqb c) Once false.

Fixpoint lits (s : string) : list atom :=
  match s with
  | EmptyString => []
  | String c s' => lit c :: lits s'
  end.

(** The runs of [p]-characters at the head of [s], shortest first, each
    with what follows it. *)
Fixpoint runs (p : ascii -> bool) (s : string) : list (string * string) :=
  (EmptyString, s)
  :: match s with
     | String c s' =>
         if p c then map (fun '(r, t) => (String c r, t)) (runs p s') else []
     | EmptyString => []
     end.

Definition candidates (a : atom) (s : string) : list (string * string) :=
  match q a with
  | Once => match s with
            | String c s' => if cls a c then [(String c EmptyString, s')] else []
            | EmptyString => []
            end
  | Star => rev (runs (cls a) s)
  | Plus => rev (List.tl (runs (cls a) s))
  | LazyStar => runs (cls a) s
  end.

Definition first_some {A B} (f : A -> option B) : list A -> option B :=
  fix go l := match l with
              | [] => None
              | x :: l' => match f x with Some y => Some y | None => go l' end
              end.

(** [run r s]: the groups and the unread text of the first match of [r]
    at the head of [s]. *)
Fixpoint run (r : list atom) (s : string) : option (list string * string) :=
  match r with
  | [] => Some ([], s)
  | a :: r' =>
      first_some
        (fun '(taken, rest) =>
           match run r' rest with
           | Some (groups, unread) =>
               Some (if captures a then taken :: groups else groups, unread)
           | None => None
           end)
        (candidates a s)
  end.

(** [re.match(r, s)]: the groups of the match at the start of [s]. *)
Definition match_ (r : list atom) (s : string) : option (list string) :=
  fst <$> run r s.

(** [re.split(r, s)] for a pattern with no group that matches no empty
    text; same bookkeeping as [Py.split_from]. *)
Fixpoint split_from (r : list atom) (s : string) (skip : nat) : list string :=
  match s with
  | EmptyString => [EmptyString]
  | String c s' =>
      match skip with
      | S k => split_from r s' k
      | O =>
          match run r s with
          | Some (_, unread) =>
              EmptyString
                :: split_from r s' (String.length s - String.length unread - 1)
          | None =>
              match split_from r s' 0 with
              | p :: ps => String c p :: ps
              | [] => [String c EmptyString]
              end
          end
      end
  end.

Definition split (r : list atom) (s : string) : list string := split_from r s 0.

Definition any_but_newline (c : ascii) : bool := negb (Ascii.eqb c "010"%char).
Definition not_comma (c : ascii) : bool := negb (Ascii.eqb c ","%char).

End Re.

(** ** Record schema

    A Record is a Python dict with string keys.  The keys every producer
    writes are fields; a key that only some Records carry is an optional
    field ([None]: the key is absent).  [scopes] is read by
    [DataHandler.get_data_by_scope] and [similarity] is written by the fuzzy
    name lookup; no parser writes either.  The similarity is the float
    [2.0 * M / T] of [difflib], kept as the rational it rounds: for names
    shorter than 2^25 characters the rounding changes neither the
    comparison with [0.6] nor the order of two ratios. *)

Record entry := Entry {
  name : string;
  description : string;
  type : string;
  category : option string;
  definition_type : option string;
  return_type : option string;
  args : option (list string);
  supported_scopes : option (list string);
  supported_targets : option (list string);
  input_scopes : option (list string);
  output_scopes : option (list string);
  categories : option (list string);
  scopes : option (list string);
  similarity : option Q
}.

(** [entry['similarity'] = s] and [entry['category'] = c] *)
Definition set_similarity (s : Q) (e : entry) : entry :=
  Entry (name e) (description e) (type e) (category e) (definition_type e)
        (return_type e) (args e) (supported_scopes e) (supported_targets e)
        (input_scopes e) (output_scopes e) (categories e) (scopes e) (Some s).

Definition set_category (c : string) (e : entry) : entry :=
  Entry (name e) (description e) (type e) (Some c) (definition_type e)
        (return_type e) (args e) (supported_scopes e) (supported_targets e)
        (input_scopes e) (output_scopes e) (categories e) (scopes e) (similarity e).

(** The closed set of kind tags. *)
Definition known_kinds : list string :=
  ["data_type"; "effect"; "trigger"; "modifier"; "event_target"].

Definition known_kind (k : string) : bool := existsb (String.eqb k) known_kinds.

(** ** Format parsers ([scripts/convert_data.py]) *)

Module Convert.

(** The dict literals of the three parsers. *)
Definition data_type_entry (nm descr deftype rettype : string) (ar : list string) : entry :=
  Entry nm descr "data_type" None (Some deftype) (Some rettype) (Some ar)
        None None None None None None None.

Definition markdown_entry (nm descr : string) (sc tg : list string) : entry :=
  Entry nm descr "effect" None None None None (Some sc) (Some tg)
        None None None None None.

Definition modifier_entry (nm : string) (cats : list string) : entry :=
  Entry nm "" "modifier" None None None None None None None None (Some cats)
        None None.

(** [(\w+)\(\s*(.*?)\s*\)] *)
Definition declaration_re : list Re.atom :=
  [ Re.Atom Py.isword Re.Plus true; Re.lit "("%char;
    Re.Atom Py.isspace Re.Star false;
    Re.Atom Re.any_but_newline Re.LazyStar true;
    Re.Atom Py.isspace Re.Star false; Re.lit ")"%char ].

(** [\n##\s+] *)
Definition heading_re : list Re.atom :=
  [ Re.lit "010"%char; Re.lit "#"%char; Re.lit "#"%char;
    Re.Atom Py.isspace Re.Plus false ].

(** [Tag:\s*([^,]+),\s*Categories:\s*] and then the group of [.] starred *)
Definition tag_re : list Re.atom :=
  Re.lits "Tag:" ++ [ Re.Atom Py.isspace Re.Star false;
                      Re.Atom Re.not_comma Re.Plus true; Re.lit ","%char;
                      Re.Atom Py.isspace Re.Star false ]
  ++ Re.lits "Categories:"
  ++ [ Re.Atom Py.isspace Re.Star false;
       Re.Atom Re.any_but_newline Re.Star true ].

Definition newline : string := String "010"%char EmptyString.

(** The loop over [lines[1:]] of [parse_data_type_file]; the state is
    (description, definition_type, return_type). *)
Definition data_type_line (st : string * string * string) (line : string)
  : string * string * string :=
  let '(d, dt, rt) := st in
  let line := Py.strip line in
  if Py.startswith line "Description:"
  then (Py.strip (Py.replace line "Description:" ""), dt, rt)
  else if Py.startswith line "Definition type:"
  then (d, Py.strip (Py.replace line "Definition type:" ""), rt)
  else if Py.startswith line "Return type:"
  then (d, dt, Py.strip (Py.replace line "Return type:" ""))
  else st.

(** One iteration of the loop over [items]: the entry it appends, if any. *)
Definition parse_data_type_item (item : string) : option entry :=
  let item := Py.strip item in
  if negb (Py.truthy item) then None
  else
    let lines := Py.split item newline in
    let first_line := Py.strip (hd "" lines) in
    let '(nm, ar) :=
      match Re.match_ declaration_re first_line with
      | Some [g1; args_str] =>
          (g1, if Py.truthy args_str
               then map Py.strip (Py.split args_str ",")
               else [])
      | _ => (first_line, [])
      end in
    let '(d, dt, rt) := fold_left data_type_line (List.tl lines) ("", "", "") in
    if Py.truthy nm then Some (data_type_entry nm d dt rt ar) else None.

Definition parse_data_type_file (content : string) : list entry :=
  omap parse_data_type_item
       (Py.split content ("-----------------------" +:+ newline)).

(** [[s.strip() for s in text.split(',') if s.strip()]] *)
Definition comma_list (text : string) : list string :=
  map Py.strip (List.filter (fun s => Py.truthy (Py.strip s)) (Py.split text ",")).

(** The loop over [lines[1:]] of [parse_markdown_log_file]; the state is
    (supported_scopes, supported_targets, description_lines). *)
Definition markdown_line (st : list string * list string * list string)
  (line : string) : list string * list string * list string :=
  let '(sc, tg, dl) := st in
  let line := Py.rstrip line in
  if Py.startswith line "**Supported Scopes**:"
  then (comma_list (Py.strip (Py.replace line "**Supported Scopes**:" "")), tg, dl)
  else if Py.startswith line "**Supported Targets**:"
  then (sc, comma_list (Py.strip (Py.replace line "**Supported Targets**:" "")), dl)
  else if Py.truthy line && negb (Py.startswith line "**")
  then (sc, tg, dl ++ [line])
  else st.

Definition parse_markdown_item (item : string) : option entry :=
  if negb (Py.truthy (Py.strip item)) then None
  else
    let lines := Py.split item newline in
    let nm := Py.strip (hd "" lines) in
    if negb (Py.truthy nm) then None
    else
      let '(sc, tg, dl) := fold_left markdown_line (List.tl lines) ([], [], []) in
      let e := markdown_entry nm (Py.strip (Py.join newline dl)) sc tg in
      if Py.truthy (name e) then Some e else None.

Definition parse_markdown_log_file (content : string) : list entry :=
  if negb (Py.contains "##" content) then []
  else omap parse_markdown_item (Re.split heading_re content).

(** One iteration of the loop over the lines of [parse_modifier_log_file]. *)
Definition parse_modifier_line (line : string) : option entry :=
  let line := Py.strip line in
  if negb (Py.truthy line) || Py.startswith line "Printing" then None
  else
    match Re.match_ tag_re line with
    | Some [g1; g2] =>
        let nm := Py.strip g1 in
        let categories_str := Py.strip g2 in
        let cats :=
          map Py.strip
              (List.filter
                 (fun c => Py.truthy (Py.strip c)
                           && negb (String.eqb (Py.strip c) "All"))
                 (Py.split categories_str ",")) in
        Some (modifier_entry nm cats)
    | _ => None
    end.

Definition parse_modifier_log_file (content : string) : list entry :=
  omap parse_modifier_line (Py.readlines content).

(** [parse_log_file]: the file at [file_path] holds [content]. *)
Definition parse_log_file (file_path content : string) : list entry :=
  let file_name := Py.stem file_path in
  if String.eqb file_name "modifiers"
  then parse_modifier_log_file content
  else parse_markdown_log_file content.

End Convert.

(** ** [difflib.SequenceMatcher(None, a, b).ratio()]

    The matcher of the standard library, with no junk predicate and with
    its default purge of popular elements.  Positions count from 0; a block
    [(i, j, k)] says [a[i:i+k] == b[j:j+k]]. *)

Module Difflib.

Definition block : Type := nat * nat * nat.

Definition size (m : block) : nat := snd m.

Section Matcher.

Variables a b : list ascii.

(** [__chain_b]: in a [b] of 200 elements or more, an element found
    more than [len(b) // 100 + 1] times is deleted from [b2j]. *)
Definition popular (c : ascii) : bool :=
  let n := length b in
  (200 <=? n) && (n / 100 + 1 <? length (List.filter (Ascii.eqb c) b)).

(** The inner loop of [find_longest_match] for one [i]: [j] runs over
    the positions of [b]; [prev] is [j2len.get(j-1, 0)] and [old] holds
    [j2len] from [j] on (0 where the dict has no key). *)
Fixpoint row (ai : ascii) (i blo bhi : nat) (bs : list ascii) (j prev : nat)
  (old : list nat) (best : block) : list nat * block :=
  match bs with
  | [] => ([], best)
  | bj :: bs' =>
      let hit := Ascii.eqb ai bj && negb (popular bj)
                 && (blo <=? j) && (j <? bhi) in
      let k := if hit then prev + 1 else 0 in
      let best' := if hit && (size best <? k)
                   then (i + 1 - k, j + 1 - k, k) else best in
      let '(new, best'') := row ai i blo bhi bs' (S j) (hd 0 old) (List.tl old) best' in
      (k :: new, best'')
  end.

(** The outer loop, [for i in range(alo, ahi)]. *)
Fixpoint rows (as_ : list ascii) (i alo ahi blo bhi : nat) (j2len : list nat)
  (best : block) : block :=
  match as_ with
  | [] => best
  | ai :: as' =>
      if (alo <=? i) && (i <? ahi)
      then let '(new, best') := row ai i blo bhi b 0 0 j2len best in
           rows as' (S i) alo ahi blo bhi new best'
      else rows as' (S i) alo ahi blo bhi j2len best
  end.

(** The two loops that extend the block over equal elements; no
    element is junk, so the two junk loops never run. *)
Fixpoint extend_back (fuel alo blo : nat) (m : block) : block :=
  match fuel with
  | O => m
  | S fuel' =>
      let '(i, j, k) := m in
      if (alo <? i) && (blo <? j)
         && Ascii.eqb (nth (i - 1) a Ascii.zero) (nth (j - 1) b Ascii.zero)
      then extend_back fuel' alo blo (i - 1, j - 1, k + 1)
      else m
  end.

Fixpoint extend_forward (fuel ahi bhi : nat) (m : block) : block :=
  match fuel with
  | O => m
  | S fuel' =>
      let '(i, j, k) := m in
      if (i + k <? ahi) && (j + k <? bhi)
         && Ascii.eqb (nth (i + k) a Ascii.zero) (nth (j + k) b Ascii.zero)
      then extend_forward fuel' ahi bhi (i, j, k + 1)
      else m
  end.

Definition find_longest_match (alo ahi blo bhi : nat) : block :=
  let m := rows a 0 alo ahi blo bhi [] (alo, blo, 0) in
  let m := extend_back (length a) alo blo m in
  extend_forward (length a) ahi bhi m.

(** The work list of [get_matching_blocks]; the head of [queue] is the
    range [queue.pop()] takes, and every round that finds a block
    leaves strictly shorter ranges of [a]. *)
Fixpoint matching_blocks (fuel : nat) (queue : list (nat * nat * nat * nat))
  (found : list block) : list block :=
  match fuel, queue with
  | S fuel', (alo, ahi, blo, bhi) :: queue' =>
      let '(i, j, k) := find_longest_match alo ahi blo bhi in
      if 0 <? k
      then
        let q1 := if (alo <? i) && (blo <? j)
                  then (alo, i, blo, j) :: queue' else queue' in
        let q2 := if (i + k <? ahi) && (j + k <? bhi)
                  then (i + k, ahi, j + k, bhi) :: q1 else q1 in
        matching_blocks fuel' q2 (found ++ [(i, j, k)])
      else matching_blocks fuel' queue' found
  | _, _ => found
  end.

(** [ratio]: sorting the blocks, merging adjacent ones and adding the
    empty last block leave the sum of the sizes unchanged. *)
Definition matches : nat :=
  list_sum (map size (matching_blocks (2 * length a + 1)
                        [(0, length a, 0, length b)] [])).

Definition calculate_ratio : Q :=
  let len := length a + length b in
  if len =? 0 then 1%Q
  else (Z.of_nat (2 * matches) # Pos.of_nat len)%Q.

End Matcher.

Definition ratio (a b : string) : Q :=
  calculate_ratio (list_ascii_of_string a) (list_ascii_of_string b).

End Difflib.

(** ** Dicts, floats and sorting *)

(** A dict that is iterated is an association list in insertion order;
    [k in d] and [d[k]] read the first pair of that key. *)
Fixpoint dict_get {V} (d : list (string * V)) (k : string) : option V :=
  match d with
  | [] => None
  | (k', v) :: d' => if String.eqb k k' then Some v else dict_get d' k
  end.

(** [x < y] on ratios. *)
Definition Qltb (x y : Q) : bool :=
  (Qnum x * Zpos (Qden y) <? Qnum y * Zpos (Qden x))%Z.

(** The sort key [lambda x: x['similarity']]. *)
Definition similarity_key (e : entry) : Q := default 0%Q (similarity e).

(** [results.sort(key=..., reverse=True)]: the stable sort, larger keys
    first; Records of equal key keep their order. *)
Fixpoint insert_desc (x : entry) (l : list entry) : list entry :=
  match l with
  | [] => [x]
  | y :: l' =>
      if Qltb (similarity_key x) (similarity_key y)
      then y :: insert_desc x l'
      else x :: l
  end.

Fixpoint sort_desc (l : list entry) : list entry :=
  match l with
  | [] => []
  | x :: l' => insert_desc x (sort_desc l')
  end.

(** The similarity threshold, [similarity > 0.6]. *)
Definition above_threshold (s : Q) : bool := Qltb (6 # 10) s.

(** ** The search engine of the server ([src/data_handler.py]) *)

Module DataHandler.

Record t := Make {
  index : list (string * list entry);
  all_data : list entry;
  modifiers : list entry;
  effects : list entry;
  triggers : list entry;
  event_targets : list entry;
  data_types_by_category : list (string * list entry)
}.

(** The fuzzy loop: every Record under a kept key is copied and the copy
    gets the ratio. *)
Definition fuzzy_results (idx : list (string * list entry)) (name_lower : string)
  : list entry :=
  flat_map
    (fun '(key, entries) =>
       let s := Difflib.ratio name_lower key in
       if above_threshold s then map (set_similarity s) entries else [])
    idx.

Definition search_by_name (self : t) (name : string) (fuzzy : bool) (limit : Z)
  : list entry :=
  let name_lower := Py.lower name in
  match dict_get (index self) name_lower with
  | Some entries => Py.slice_to entries limit
  | None =>
      if negb fuzzy then []
      else Py.slice_to (sort_desc (fuzzy_results (index self) name_lower)) limit
  end.

(** The test of the four free-text searches. *)
Definition mentions (query_lower : string) (e : entry) : bool :=
  Py.contains query_lower (Py.lower (name e))
  || Py.contains query_lower (Py.lower (description e)).

Definition search_modifiers (self : t) (query : string) (limit : Z) : list entry :=
  Py.slice_to (List.filter (mentions (Py.lower query)) (modifiers self)) limit.

Definition search_effects (self : t) (query : string) (limit : Z) : list entry :=
  Py.slice_to (List.filter (mentions (Py.lower query)) (effects self)) limit.

Definition search_triggers (self : t) (query : string) (limit : Z) : list entry :=
  Py.slice_to (List.filter (mentions (Py.lower query)) (triggers self)) limit.

Definition search_event_targets (self : t) (query : string) (limit : Z) : list entry :=
  Py.slice_to (List.filter (mentions (Py.lower query)) (event_targets self)) limit.

Definition get_data_types_by_category (self : t) (category : string) : list entry :=
  default [] (dict_get (data_types_by_category self) category).

Definition get_data_by_type (self : t) (data_type : string) (limit : Z) : list entry :=
  Py.slice_to
    (List.filter (fun item => String.eqb (type item) data_type) (all_data self))
    limit.

(** [scope in item.get('scopes', [])] *)
Definition get_data_by_scope (self : t) (scope : string) (limit : Z) : list entry :=
  Py.slice_to
    (List.filter
       (fun item => existsb (String.eqb scope) (default [] (scopes item)))
       (all_data self))
    limit.

(** The dict of [get_statistics]. *)
Module Stats.

Record t := Make {
  total_entries : nat;
  data_types : nat;
  effects : nat;
  triggers : nat;
  modifiers : nat;
  event_targets : nat;
  data_type_categories : list (string * nat)
}.

End Stats.

Definition get_statistics (self : t) : Stats.t :=
  Stats.Make
    (length (all_data self))
    (length (List.filter (fun item => String.eqb (type item) "data_type")
                         (all_data self)))
    (length (effects self))
    (length (triggers self))
    (length (modifiers self))
    (length (event_targets self))
    (map (fun c => (c, length (default [] (dict_get (data_types_by_category self) c))))
         ["common"; "gui"; "internalclausewitzgui"; "script"; "uncategorized"]).

End DataHandler.

(** ** The stand-alone searcher ([scripts/data_searcher.py]) *)

(** What a call gives: a value, or the [KeyError] of a missing key. *)
Inductive result (A : Type) : Type :=
| Ok (a : A)
| KeyError (key : string).
Arguments Ok {A} a.
Arguments KeyError {A} key.

Definition bind {A B} (r : result A) (f : A -> result B) : result B :=
  match r with
  | Ok a => f a
  | KeyError k => KeyError k
  end.

(** [[e for e in l if p(e)]] where reading a key in [p] may fail. *)
Fixpoint filter_checked (p : entry -> result bool) (l : list entry)
  : result (list entry) :=
  match l with
  | [] => Ok []
  | e :: l' =>
      bind (p e) (fun keep =>
      bind (filter_checked p l') (fun rest =>
      Ok (if keep then e :: rest else rest)))
  end.

(** [e[key]] for an optional key. *)
Definition item {A} (key : string) (v : option A) : result A :=
  match v with
  | Some a => Ok a
  | None => KeyError key
  end.

(** What [re.compile] gives: a pattern object, the [re.error] of a pattern
    that is not well formed, or an exception of another class, such as the
    [OverflowError] of a repetition count that is too large or a
    [RecursionError]. *)
Inductive compile_result (regex : Type) : Type :=
| Compiled (rx : regex)
| ReError
| OtherError (exception : string).
Arguments Compiled {regex} rx.
Arguments ReError {regex}.
Arguments OtherError {regex} exception.

(** What a call gives when an exception may leave it. *)
Inductive outcome (A : Type) : Type :=
| Returns (a : A)
| Raises (exception : string).
Arguments Returns {A} a.
Arguments Raises {A} exception.

Module DataSearcher.

Record t := Make {
  index : list (string * list entry);
  all_data : list entry
}.

(** One round of the fuzzy loop.  The Records under a kept key get the
    ratio in place, so the index holds the changed Records and [results]
    holds the same objects.  [seen] is the part of the index already
    passed. *)
Definition fuzzy_step (name_lower : string)
  (st : list entry * list (string * list entry)) (kv : string * list entry)
  : list entry * list (string * list entry) :=
  let '(results, seen) := st in
  let '(key, entries) := kv in
  let s := Difflib.ratio name_lower key in
  if above_threshold s
  then let entries' := map (set_similarity s) entries in
       (results ++ entries', seen ++ [(key, entries')])
  else (results, seen ++ [(key, entries)]).

(** [search_by_name]: the result and the searcher after the call. *)
Definition search_by_name (self : t) (name : string) (fuzzy : bool)
  : list entry * t :=
  let name_lower := Py.lower name in
  match dict_get (index self) name_lower with
  | Some entries => (entries, self)
  | None =>
      if negb fuzzy then ([], self)
      else
        let '(results, index') :=
          fold_left (fuzzy_step name_lower) (index self) ([], []) in
        (Py.slice_to (sort_desc results) 20, Make index' (all_data self))
  end.

Section Regex.

(** The [re] module: [re_compile pattern ignorecase] is what
    [re.compile(pattern, re.IGNORECASE)] gives; [re_search] is
    [regex.search].  The [try] of [search_by_regex] has one handler, for
    [re.error]; any other exception leaves the search. *)
Variable regex : Type.
Variable re_compile : string -> bool -> compile_result regex.
Variable re_search : regex -> string -> bool.

Definition search_by_regex (self : t) (pattern : string) : outcome (list entry) :=
  match re_compile pattern true with
  | ReError => Returns []
  | OtherError exception => Raises exception
  | Compiled rx =>
      Returns (List.filter (fun e => re_search rx (name e)) (all_data self))
  end.

End Regex.

Definition search_by_type (self : t) (return_type_ : string) : list entry :=
  List.filter
    (fun e => String.eqb (Py.lower (default "" (return_type e)))
                         (Py.lower return_type_))
    (all_data self).

Definition search_by_scopes (self : t) (scope : string) (entry_type : option string)
  : list entry :=
  let scope_lower := Py.lower scope in
  List.filter
    (fun e =>
       existsb (fun s => String.eqb (Py.lower s) scope_lower)
               (default [] (supported_scopes e))
       && match entry_type with
          | None => true
          | Some ty => String.eqb (Py.lower (type e)) (Py.lower ty)
          end)
    (all_data self).

Definition category_is (c : string) (e : entry) : result bool :=
  bind (item "category" (category e)) (fun v =>
  Ok (String.eqb (Py.lower v) (Py.lower c))).

Definition return_type_is (rt : string) (e : entry) : result bool :=
  bind (item "return_type" (return_type e)) (fun v =>
  Ok (String.eqb (Py.lower v) (Py.lower rt))).

Definition description_has (keyword_lower : string) (e : entry) : bool :=
  Py.contains keyword_lower (Py.lower (description e)).

Definition search_by_category (self : t) (category_ : string) : result (list entry) :=
  filter_checked (category_is category_) (all_data self).

Definition search_by_description (self : t) (keyword : string) : list entry :=
  List.filter (description_has (Py.lower keyword)) (all_data self).

(** [advanced_search]: [kwargs] maps the keywords of the call to their
    values.  The result and the searcher after the call. *)
Definition advanced_search (self : t) (kwargs : gmap string string)
  : result (list entry) * t :=
  let results := all_data self in
  let '(results, self') :=
    match kwargs !! "name" with
    | Some nm =>
        let '(name_results, self') := search_by_name self nm true in
        let result_names : gset string := list_to_set (map name name_results) in
        (List.filter (fun e => bool_decide (name e ∈ result_names)) results, self')
    | None => (results, self)
    end in
  (bind (match kwargs !! "return_type" with
         | Some rt => filter_checked (return_type_is rt) results
         | None => Ok results
         end) (fun results =>
   bind (match kwargs !! "category" with
         | Some c => filter_checked (category_is c) results
         | None => Ok results
         end) (fun results =>
   Ok (match kwargs !! "description" with
       | Some d => List.filter (description_has (Py.lower d)) results
       | None => results
       end))),
   self').

End DataSearcher.

(** ** The Store Builder ([convert_all_data] of [scripts/convert_data.py])

    [all_data] is the dict from category to parsed entries, in the order
    the sources were read. *)

Module StoreBuilder.

(** [d.setdefault(k, []).append(v)] *)
Fixpoint dict_append {V} (d : list (string * list V)) (k : string) (v : V)
  : list (string * list V) :=
  match d with
  | [] => [(k, [v])]
  | (k', vs) :: d' =>
      if String.eqb k k' then (k', vs ++ [v]) :: d'
      else (k', vs) :: dict_append d' k v
  end.

(** The dict the index keeps of an entry: the shared keys, and the keys
    of its kind with the defaults of [entry.get]. *)
Definition indexed_entry (category_ : string) (e : entry) : entry :=
  let base := Entry (name e) (description e) (type e) (Some category_)
                    None None None None None None None None None None in
  let get_list (v : option (list string)) := Some (default [] v) in
  let get_str (v : option string) := Some (default "" v) in
  if String.eqb (type e) "data_type"
  then Entry (name e) (description e) (type e) (Some category_)
             (get_str (definition_type e)) (get_str (return_type e))
             (get_list (args e)) None None None None None None None
  else if String.eqb (type e) "effect" || String.eqb (type e) "trigger"
  then Entry (name e) (description e) (type e) (Some category_)
             None None None (get_list (supported_scopes e))
             (get_list (supported_targets e)) None None None None None
  else if String.eqb (type e) "event_target"
  then Entry (name e) (description e) (type e) (Some category_)
             None None None None None (get_list (input_scopes e))
             (get_list (output_scopes e)) None None None
  else if String.eqb (type e) "modifier"
  then Entry (name e) (description e) (type e) (Some category_)
             None None None None None None None (get_list (categories e))
             None None
  else base.

Definition index_by_name (all_data : list (string * list entry))
  : list (string * list entry) :=
  fold_left
    (fun idx '(category_, entries) =>
       fold_left
         (fun idx e => dict_append idx (Py.lower (name e)) (indexed_entry category_ e))
         entries idx)
    all_data [].

Definition all_entries (all_data : list (string * list entry)) : list entry :=
  flat_map (fun '(category_, entries) => map (set_category category_) entries)
           all_data.

End StoreBuilder.

(** ** The resources of the server ([src/resources.py])

    A resource is modelled by the dict it hands to [json.dumps];
    [data_handler] is [None] when the handler was not initialized. *)

Module Resources.

Inductive payload :=
| Error (message : string)
| Listing (type_ : string) (count : nat) (data : list entry)
| Statistics (type_ : string) (data : DataHandler.Stats.t).

Definition not_initialized : payload := Error "Data handler not initialized".

Definition get_all_modifiers (data_handler : option DataHandler.t) : payload :=
  match data_handler with
  | None => not_initialized
  | Some h =>
      Listing "modifiers" (length (DataHandler.modifiers h))
              (Py.slice_to (DataHandler.modifiers h) 100)
  end.

Definition get_all_effects (data_handler : option DataHandler.t) : payload :=
  match data_handler with
  | None => not_initialized
  | Some h =>
      Listing "effects" (length (DataHandler.effects h))
              (Py.slice_to (DataHandler.effects h) 100)
  end.

Definition get_all_triggers (data_handler : option DataHandler.t) : payload :=
  match data_handler with
  | None => not_initialized
  | Some h =>
      Listing "triggers" (length (DataHandler.triggers h))
              (Py.slice_to (DataHandler.triggers h) 100)
  end.

Definition get_all_event_targets (data_handler : option DataHandler.t) : payload :=
  match data_handler with
  | None => not_initialized
  | Some h =>
      Listing "event_targets" (length (DataHandler.event_targets h))
              (DataHandler.event_targets h)
  end.

Definition get_data_types_common (data_handler : option DataHandler.t) : payload :=
  match data_handler with
  | None => not_initialized
  | Some h =>
      let data := DataHandler.get_data_types_by_category h "common" in
      Listing "data_types_common" (length data) (Py.slice_to data 100)
  end.

Definition get_data_types_gui (data_handler : option DataHandler.t) : payload :=
  match data_handler with
  | None => not_initialized
  | Some h =>
      let data := DataHandler.get_data_types_by_category h "gui" in
      Listing "data_types_gui" (length data) (Py.slice_to data 100)
  end.

Definition get_data_types_script (data_handler : option DataHandler.t) : payload :=
  match data_handler with
  | None => not_initialized
  | Some h =>
      let data := DataHandler.get_data_types_by_category h "script" in
      Listing "data_types_script" (length data) (Py.slice_to data 100)
  end.

Definition get_server_statistics (data_handler : option DataHandler.t) : payload :=
  match data_handler with
  | None => not_initialized
  | Some h => Statistics "statistics" (DataHandler.get_statistics h)
  end.

(** The resources that list Records, in the order of the file. *)
Definition listings (data_handler : option DataHandler.t) : list payload :=
  [ get_all_modifiers data_handler; get_all_effects data_handler;
    get_all_triggers data_handler; get_all_event_targets data_handler;
    get_data_types_common data_handler; get_data_types_gui data_handler;
    get_data_types_script data_handler ].

End Resources.

(** ** The tools of the server ([src/tools.py])

    A tool is modelled by the dict it hands to [json.dumps]: the echoed
    argument under its key, the fuzzy flag where the dict has one, the
    count and the results. *)

Module Tools.

Inductive payload :=
| Error (message : string)
| Found (key value : string) (fuzzy : option bool) (count : nat)
        (results : list entry)
| Statistics (data : DataHandler.Stats.t).

Definition not_initialized : payload := Error "Data handler not initialized".

Definition search_by_name (data_handler : option DataHandler.t) (name : string)
  (fuzzy : bool) (limit : Z) : payload :=
  match data_handler with
  | None => not_initialized
  | Some h =>
      let results := DataHandler.search_by_name h name fuzzy limit in
      Found "query" name (Some fuzzy) (length results) results
  end.

Definition search_modifiers (data_handler : option DataHandler.t) (query : string)
  (limit : Z) : payload :=
  match data_handler with
  | None => not_initialized
  | Some h =>
      let results := DataHandler.search_modifiers h query limit in
      Found "query" query None (length results) results
  end.

Definition search_effects (data_handler : option DataHandler.t) (query : string)
  (limit : Z) : payload :=
  match data_handler with
  | None => not_initialized
  | Some h =>
      let results := DataHandler.search_effects h query limit in
      Found "query" query None (length results) results
  end.

Definition search_triggers (data_handler : option DataHandler.t) (query : string)
  (limit : Z) : payload :=
  match data_handler with
  | None => not_initialized
  | Some h =>
      let results := DataHandler.search_triggers h query limit in
      Found "query" query None (length results) results
  end.

Definition search_event_targets (data_handler : option DataHandler.t)
  (query : string) (limit : Z) : payload :=
  match data_handler with
  | None => not_initialized
  | Some h =>
      let results := DataHandler.search_event_targets h query limit in
      Found "query" query None (length results) results
  end.

Definition search_by_type (data_handler : option DataHandler.t) (data_type : string)
  (limit : Z) : payload :=
  match data_handler with
  | None => not_initialized
  | Some h =>
      let results := DataHandler.get_data_by_type h data_type limit in
      Found "data_type" data_type None (length results) results
  end.

Definition search_by_scope (data_handler : option DataHandler.t) (scope : string)
  (limit : Z) : payload :=
  match data_handler with
  | None => not_initialized
  | Some h =>
      let results := DataHandler.get_data_by_scope h scope limit in
      Found "scope" scope None (length results) results
  end.

Definition get_data_types_by_category (data_handler : option DataHandler.t)
  (category_ : string) : payload :=
  match data_handler with
  | None => not_initialized
  | Some h =>
      let results := DataHandler.get_data_types_by_category h category_ in
      Found "category" category_ None (length results) results
  end.

Definition get_statistics (data_handler : option DataHandler.t) : payload :=
  match data_handler with
  | None => not_initialized
  | Some h => Statistics (DataHandler.get_statistics h)
  end.

End Tools.

(** ** Sample sources and stores *)

Module Samples.

Definition nl : string := Convert.newline.

(** The heading-block scenario of the specification. *)
Definition add_gold_text : string :=
  "## add_gold" +:+ nl +:+ "**Supported Scopes**: country, province" +:+ nl
  +:+ "Grants gold." +:+ nl.

(** The same block after an empty first line, as in a log whose first
    heading is not at the very start of the file. *)
Definition effects_log : string := nl +:+ add_gold_text.

Definition triggers_log : string :=
  nl +:+ "## is_at_war" +:+ nl +:+ "**Supported Scopes**: country" +:+ nl
  +:+ "True when at war." +:+ nl.

Definition nameless_modifier_log : string := "Tag: , Categories: x" +:+ nl.

Definition parsed : list (string * list entry) :=
  [ ("effects", Convert.parse_log_file "docs/effects.log" effects_log);
    ("triggers", Convert.parse_log_file "docs/triggers.log" triggers_log) ].

Definition handler : DataHandler.t :=
  DataHandler.Make (StoreBuilder.index_by_name parsed)
                   (StoreBuilder.all_entries parsed)
                   [] (Convert.parse_log_file "docs/effects.log" effects_log)
                   (Convert.parse_log_file "docs/triggers.log" triggers_log)
                   [] [].

Definition searcher : DataSearcher.t :=
  DataSearcher.Make (StoreBuilder.index_by_name parsed)
                    (StoreBuilder.all_entries parsed).

(** Two Records of one category and two kinds. *)
Definition army_size : entry :=
  Entry "army_size" "" "modifier" (Some "army") None None None None None
        None None (Some ["military"]) None None.

Definition raise_army : entry :=
  Entry "raise_army" "Raises an army." "effect" (Some "army") None None None
        (Some ["country"]) (Some []) None None None None None.

Definition army_searcher : DataSearcher.t :=
  DataSearcher.Make [("army_size", [army_size]); ("raise_army", [raise_army])]
                    [army_size; raise_army].

Definition army_handler : DataHandler.t :=
  DataHandler.Make [("army_size", [army_size]); ("raise_army", [raise_army])]
                   [army_size; raise_army] [army_size] [raise_army] [] [] [].

Definition kind_and_category : gmap string string :=
  <["kind" := "modifier"]> (<["category" := "army"]> ∅).

(** The characters that [re] does not read as themselves. *)
Definition special (c : ascii) : bool :=
  existsb (Ascii.eqb c)
          [ "."%char; "092"%char; "["%char; "{"%char; "("%char; ")"%char;
            "*"%char; "+"%char; "?"%char; "^"%char; "$"%char; "|"%char ].

Fixpoint plain (pattern : string) : bool :=
  match pattern with
  | EmptyString => true
  | String c pattern' => negb (special c) && plain pattern'
  end.

(** The pattern with a repetition count above what [re] accepts. *)
Definition overflowing_pattern : string := "a{99999999999}".

(** A sample of [re], for three kinds of pattern.  A pattern of plain
    characters compiles, and with the flag for letter case it finds a match
    in the texts that contain it up to letter case.  The pattern ["("] is
    not well formed: [re.error].  For [overflowing_pattern] the parser
    raises [OverflowError].  The sample stands for no other pattern; it
    answers [re.error] there. *)
Definition re_compile (pattern : string) (ignorecase : bool)
  : compile_result string :=
  if plain pattern
  then Compiled (if ignorecase then Py.lower pattern else pattern)
  else if String.eqb pattern overflowing_pattern
  then OtherError "OverflowError"
  else ReError.

Definition re_search (rx text : string) : bool := Py.contains rx (Py.lower text).

End Samples.

(** * Vocabulary of the statements *)

(** [x] may stand before [y] in a list sorted by similarity, larger first. *)
Definition ranked (x y : entry) : Prop :=
  (similarity_key y <= similarity_key x)%Q.

(** What the fuzzy path shows of a returned Record: it is a Record of the
    index under some key, with the ratio of the lowercased query and that
    key attached, and the ratio is above the threshold. *)
Definition scored (idx : list (string * list entry)) (name_lower : string)
  (r : entry) : Prop :=
  exists key entries e,
    In (key, entries) idx
    /\ In e entries
    /\ r = set_similarity (Difflib.ratio name_lower key) e
    /\ similarity r = Some (Difflib.ratio name_lower key)
    /\ (6 # 10 < Difflib.ratio name_lower key)%Q.

(** The operations of [DataHandler] that take a limit, as functions of it. *)
Definition limited_operations (self : DataHandler.t) (name : string)
  (fuzzy : bool) (query : string) : list (Z -> list entry) :=
  [ DataHandler.search_by_name self name fuzzy;
    DataHandler.search_modifiers self query;
    DataHandler.search_effects self query;
    DataHandler.search_triggers self query;
    DataHandler.search_event_targets self query;
    DataHandler.get_data_by_type self query;
    DataHandler.get_data_by_scope self query ].

(** What the slice [[:limit]] of the list [full] of all matches gives. *)
Definition cut_to_limit (full : list entry) (op : Z -> list entry) : Prop :=
  forall limit : Z,
    op limit = Py.slice_to full limit
    /\ ((0 <= limit)%Z -> (Z.of_nat (length (op limit)) <= limit)%Z)
    /\ (limit = 0%Z -> op limit = [])
    /\ ((Z.of_nat (length full) <= limit)%Z -> op limit = full)
    /\ ((limit < 0)%Z -> op limit = take (length full - Z.to_nat (- limit)) full).

(** What the three dict literals fix. *)
Definition parser_shape (kind : string) (e : entry) : Prop :=
  type e = kind /\ scopes e = None /\ similarity e = None /\ category e = None.

(** An item of the index after the fuzzy loop of [DataSearcher]: under a
    kept key every Record has the ratio. *)
Definition marked (name_lower : string) (kv : string * list entry)
  : string * list entry :=
  let s := Difflib.ratio name_lower (fst kv) in
  if above_threshold s then (fst kv, map (set_similarity s) (snd kv)) else kv.

(** The test of [search_by_type]. *)
Definition return_type_matches (rt : string) (e : entry) : bool :=
  String.eqb (Py.lower (default "" (return_type e))) (Py.lower rt).

(** The test of [search_by_category] on a Record that has a category. *)
Definition category_matches (c : string) (e : entry) : bool :=
  String.eqb (Py.lower (default "" (category e))) (Py.lower c).

(** The names the name lookup returns, as the set [result_names]. *)
Definition named_by (self : DataSearcher.t) (nm : string) (e : entry) : bool :=
  bool_decide
    (name e ∈ (list_to_set (map name (fst (DataSearcher.search_by_name self nm true)))
               : gset string)).

(** The conjunction of the filters that [kwargs] supplies, among the four
    that [advanced_search] reads. *)
Definition passes (self : DataSearcher.t) (kwargs : gmap string string)
  (e : entry) : bool :=
  match kwargs !! "name" with Some nm => named_by self nm e | None => true end
  && match kwargs !! "return_type" with
     | Some rt => return_type_matches rt e
     | None => true
     end
  && match kwargs !! "category" with
     | Some c => category_matches c e
     | None => true
     end
  && match kwargs !! "description" with
     | Some d => DataSearcher.description_has (Py.lower d) e
     | None => true
     end.

(** The block [m] lies in the range from [alo] to [ahi] of [a]. *)
Definition inside (alo ahi : nat) (m : Difflib.block) : Prop :=
  alo <= fst (fst m) /\ fst (fst m) + Difflib.size m <= ahi.

(** The rounds still to run for a work list. *)
Definition rounds (queue : list (nat * nat * nat * nat)) : nat :=
  list_sum (map (fun '(alo, ahi, _, _) => 2 * (ahi - alo) + 1) queue).

(** Every range of the work list has its bounds in order. *)
Definition ordered (queue : list (nat * nat * nat * nat)) : Prop :=
  Forall (fun '(alo, ahi, _, _) => alo <= ahi) queue.

(** The Records the Store Builder registers under the key [k]: the
    indexed form of every parsed entry whose lowercased name is [k], in
    the order of the sources. *)
Definition registered (sources : list (string * list entry)) (k : string)
  : list entry :=
  flat_map
    (fun '(category_, entries) =>
       map (StoreBuilder.indexed_entry category_)
           (List.filter (fun e => String.eqb (Py.lower (name e)) k) entries))
    sources.

(** Two Records that differ at most in the similarity. *)
Definition same_but_similarity (e1 e2 : entry) : Prop :=
  exists s, set_similarity s e1 = set_similarity s e2.

(** The entries of [sources] come from the parsers. *)
Definition parsed_sources (sources : list (string * list entry)) : Prop :=
  Forall
    (fun kv =>
       (exists content, snd kv = Convert.parse_data_type_file content)
       \/ (exists file_path content,
              snd kv = Convert.parse_log_file file_path content))
    sources.

(** What a listing resource shows of the list [full]: the number of all
    its Records and, as data, its first hundred. *)
Definition first_hundred (full : list entry) (p : Resources.payload) : Prop :=
  exists type_, p = Resources.Listing type_ (length full) (take 100 full).

(** Every character of [s] is in the class [p]. *)
Fixpoint all_chars (p : ascii -> bool) (s : string) : bool :=
  match s with
  | EmptyString => true
  | String c s' => p c && all_chars p s'
  end.

(** The keys of a data type: a Record carries them and no key of another
    kind. *)
Definition data_type_keys (e : entry) : Prop :=
  is_Some (definition_type e) /\ is_Some (return_type e) /\ is_Some (args e)
  /\ supported_scopes e = None /\ supported_targets e = None
  /\ categories e = None.

(** The keys the Heading-Block Parser writes. *)
Definition effect_keys (e : entry) : Prop :=
  is_Some (supported_scopes e) /\ is_Some (supported_targets e)
  /\ definition_type e = None /\ return_type e = None /\ args e = None
  /\ categories e = None.

(** The keys the Line-Tag Parser writes. *)
Definition modifier_keys (e : entry) : Prop :=
  is_Some (categories e) /\ description e = ""
  /\ definition_type e = None /\ return_type e = None /\ args e = None
  /\ supported_scopes e = None /\ supported_targets e = None.

(** An item of a comma-separated list as the parsers keep it. *)
Definition clean_item (c : string) : Prop := c <> "" /\ Py.strip c = c.

(** The parsed entries with the category of their source, in order. *)
Definition tagged (sources : list (string * list entry)) : list (string * entry) :=
  flat_map (fun '(category_, entries) => map (pair category_) entries) sources.

(** One round of the index loop of the Store Builder. *)
Definition register (idx : list (string * list entry)) (p : string * entry)
  : list (string * list entry) :=
  StoreBuilder.dict_append idx (Py.lower (name (snd p)))
                           (StoreBuilder.indexed_entry (fst p) (snd p)).

(** What a dict holds for a key: nothing when no Record was appended. *)
Definition some_if_any {A} (l : list A) : option (list A) :=
  match l with [] => None | _ => Some l end.

(** The four free-text searches, each with the list it scans. *)
Definition free_text_searches (self : DataHandler.t)
  : list ((string -> Z -> list entry) * list entry) :=
  [ (DataHandler.search_modifiers self, DataHandler.modifiers self);
    (DataHandler.search_effects self, DataHandler.effects self);
    (DataHandler.search_triggers self, DataHandler.triggers self);
    (DataHandler.search_event_targets self, DataHandler.event_targets self) ].

(** The lowercased query occurs in the lowercased name or description. *)
Definition mentioned_in (query : string) (r : entry) : Prop :=
  Py.contains (Py.lower query) (Py.lower (name r)) = true
  \/ Py.contains (Py.lower query) (Py.lower (description r)) = true.

(** The Records the name filter of composite search lets through. *)
Definition name_narrowed (self : DataSearcher.t) (kwargs : gmap string string)
  : list entry :=
  List.filter
    (fun e => match kwargs !! "name" with
              | Some nm => named_by self nm e
              | None => true
              end)
    (DataSearcher.all_data self).

(** The tools that take a limit. *)
Definition limited_tools (data_handler : option DataHandler.t) (name : string)
  (fuzzy : bool) (query : string) (limit : Z) : list Tools.payload :=
  [ Tools.search_by_name data_handler name fuzzy limit;
    Tools.search_modifiers data_handler query limit;
    Tools.search_effects data_handler query limit;
    Tools.search_triggers data_handler query limit;
    Tools.search_event_targets data_handler query limit;
    Tools.search_by_type data_handler query limit;
    Tools.search_by_scope data_handler query limit ].

(** * Properties of the search engine *)

(** ** Slices *)

Section Slices.

Context {A : Type}.
Implicit Types (l : list A) (limit : Z).

Lemma slice_to_is_take l limit : exists n, Py.slice_to l limit = take n l.
Proof. unfold Py.slice_to. destruct (limit <? 0)%Z; eauto. Qed.

Lemma slice_to_length l limit :
  (0 <= limit)%Z -> (Z.of_nat (length (Py.slice_to l limit)) <= limit)%Z.
Proof.
  intros Hpos. unfold Py.slice_to.
  destruct (Z.ltb_spec limit 0) as [Hneg | _]; [lia |].
  rewrite length_take. lia.
Qed.

Lemma slice_to_zero l : Py.slice_to l 0 = [].
Proof. reflexivity. Qed.

Lemma slice_to_negative l limit :
  (limit < 0)%Z ->
  Py.slice_to l limit = take (length l - Z.to_nat (- limit)) l.
Proof.
  intros Hneg. unfold Py.slice_to.
  destruct (Z.ltb_spec limit 0); [reflexivity | lia].
Qed.

Lemma slice_to_all l limit :
  (Z.of_nat (length l) <= limit)%Z -> Py.slice_to l limit = l.
Proof.
  intros Hbig. unfold Py.slice_to.
  destruct (Z.ltb_spec limit 0); [lia |]. apply take_ge. lia.
Qed.

Lemma slice_to_In l limit x : In x (Py.slice_to l limit) -> In x l.
Proof.
  destruct (slice_to_is_take l limit) as [n ->].
  rewrite <- (take_drop n l) at 2. intros Hin. apply in_or_app. by left.
Qed.

Lemma slice_to_Forall (P : A -> Prop) l limit :
  Forall P l -> Forall P (Py.slice_to l limit).
Proof.
  destruct (slice_to_is_take l limit) as [n ->]. apply Forall_take.
Qed.

Lemma slice_to_sorted (R : relation A) l limit :
  StronglySorted R l -> StronglySorted R (Py.slice_to l limit).
Proof.
  destruct (slice_to_is_take l limit) as [n ->].
  rewrite <- (take_drop n l) at 1. apply StronglySorted_app_1_l.
Qed.

End Slices.

(** ** The sort by similarity *)

Lemma Qltb_lt x y : Qltb x y = true <-> (x < y)%Q.
Proof. unfold Qltb, Qlt. apply Z.ltb_lt. Qed.

Lemma Qltb_ge x y : Qltb x y = false <-> (y <= x)%Q.
Proof. unfold Qltb, Qle. rewrite Z.ltb_ge. reflexivity. Qed.

Lemma insert_desc_perm x l : insert_desc x l ≡ₚ x :: l.
Proof.
  induction l as [| y l IH]; simpl; [done |].
  destruct (Qltb _ _); [| done].
  rewrite IH. apply Permutation_swap.
Qed.

Lemma sort_desc_perm l : sort_desc l ≡ₚ l.
Proof.
  induction l as [| x l IH]; simpl; [done |].
  by rewrite insert_desc_perm, IH.
Qed.

Lemma insert_desc_sorted x l :
  StronglySorted ranked l -> StronglySorted ranked (insert_desc x l).
Proof.
  induction 1 as [| y l Hsorted IH Hall]; simpl.
  - repeat constructor.
  - destruct (Qltb (similarity_key x) (similarity_key y)) eqn:Hcmp.
    + constructor; [exact IH |].
      rewrite insert_desc_perm. constructor; [| exact Hall].
      apply Qltb_lt in Hcmp. unfold ranked. by apply Qlt_le_weak.
    + apply Qltb_ge in Hcmp.
      constructor; [by constructor |].
      constructor; [exact Hcmp |].
      eapply Forall_impl; [exact Hall |].
      unfold ranked. intros z Hz. by eapply Qle_trans.
Qed.

Lemma sort_desc_sorted l : StronglySorted ranked (sort_desc l).
Proof.
  induction l as [| x l IH]; simpl; [constructor | by apply insert_desc_sorted].
Qed.

(** The sort is stable: the Records of one similarity keep their order. *)
Lemma insert_desc_stable (s : Q) x l :
  List.filter (fun e => Qeq_bool (similarity_key e) s) (insert_desc x l)
  = List.filter (fun e => Qeq_bool (similarity_key e) s) (x :: l).
Proof.
  induction l as [| y l IH]; [reflexivity |].
  cbn [insert_desc].
  destruct (Qltb (similarity_key x) (similarity_key y)) eqn:Hcmp; [| reflexivity].
  apply Qltb_lt in Hcmp.
  cbn [List.filter] in *. rewrite IH.
  destruct (Qeq_bool (similarity_key x) s) eqn:Hx; [| reflexivity].
  destruct (Qeq_bool (similarity_key y) s) eqn:Hy; [| reflexivity].
  apply Qeq_bool_iff in Hx, Hy. rewrite Hx, Hy in Hcmp.
  by apply Qlt_irrefl in Hcmp.
Qed.

Lemma sort_desc_stable (s : Q) l :
  List.filter (fun e => Qeq_bool (similarity_key e) s) (sort_desc l)
  = List.filter (fun e => Qeq_bool (similarity_key e) s) l.
Proof.
  induction l as [| x l IH]; [reflexivity |].
  cbn [sort_desc]. rewrite insert_desc_stable. cbn [List.filter].
  by rewrite IH.
Qed.

(** ** Name lookup *)

Lemma fuzzy_results_scored idx name_lower :
  Forall (scored idx name_lower) (DataHandler.fuzzy_results idx name_lower).
Proof.
  unfold DataHandler.fuzzy_results.
  induction idx as [| [key entries] idx IH]; cbn [flat_map]; [constructor |].
  apply Forall_app. split.
  - destruct (above_threshold _) eqn:Habove; [| constructor].
    apply Qltb_lt in Habove.
    apply Forall_forall. intros r Hr. apply list_elem_of_In in Hr.
    apply in_map_iff in Hr as [e [<- He]].
    exists key, entries, e. split; [by left | done].
  - eapply Forall_impl; [exact IH |].
    intros r (key' & entries' & e & Hin & Hs). exists key', entries', e.
    split; [by right | exact Hs].
Qed.

(** C9: on the fuzzy path of [DataHandler.search_by_name] (the lowercased
    query is no key of the index and [fuzzy] is on), every returned Record
    carries the ratio of the lowercased query with its key, which is above
    0.6; the result is sorted by similarity, larger first; and it holds at
    most [limit] Records, for a limit that is a count (20 by default). *)
Theorem fuzzy_lookup_ranked (self : DataHandler.t) (name : string) (limit : Z) :
  dict_get (DataHandler.index self) (Py.lower name) = None ->
  let found := DataHandler.search_by_name self name true limit in
  Forall (scored (DataHandler.index self) (Py.lower name)) found
  /\ StronglySorted ranked found
  /\ ((0 <= limit)%Z -> (Z.of_nat (length found) <= limit)%Z).
Proof.
  intros Hmiss found. subst found.
  unfold DataHandler.search_by_name. rewrite Hmiss. cbn [negb].
  split; [| split].
  - apply slice_to_Forall.
    rewrite sort_desc_perm. apply fuzzy_results_scored.
  - apply slice_to_sorted, sort_desc_sorted.
  - apply slice_to_length.
Qed.

Lemma fuzzy_lookup_ranked_witness :
  let found := DataHandler.search_by_name Samples.handler "add_gol" true 20 in
  Forall (scored (DataHandler.index Samples.handler) (Py.lower "add_gol")) found
  /\ StronglySorted ranked found
  /\ ((0 <= 20)%Z -> (Z.of_nat (length found) <= 20)%Z).
Proof.
  apply (fuzzy_lookup_ranked Samples.handler "add_gol" 20).
  vm_compute. reflexivity.
Defined.

(** The sample query is served by the fuzzy path and finds one Record. *)
Example fuzzy_lookup_sample :
  map (fun r => (name r, similarity r))
      (DataHandler.search_by_name Samples.handler "add_gol" true 20)
  = [("add_gold", Some (14 # 15)%Q)].
Proof. vm_compute. reflexivity. Qed.

(** C10, as the code has it: a query that is, up to letter case, a key of
    the index is answered by the exact path, whatever the fuzzy flag: the
    Records registered under the key come back as they are stored, in
    their order and cut to the limit.  No ratio is computed, and no
    similarity is attached to them. *)
Theorem exact_lookup_returns_registered (idx : list (string * list entry))
  (key name : string) (entries : list entry) :
  dict_get idx key = Some entries ->
  Py.lower name = key ->
  (forall self fuzzy limit,
      DataHandler.index self = idx ->
      DataHandler.search_by_name self name fuzzy limit = Py.slice_to entries limit)
  /\ (forall self fuzzy,
         DataSearcher.index self = idx ->
         DataSearcher.search_by_name self name fuzzy = (entries, self)).
Proof.
  intros Hkey <-. split; intros self ? *; intros <-.
  - unfold DataHandler.search_by_name. by rewrite Hkey.
  - unfold DataSearcher.search_by_name. by rewrite Hkey.
Qed.

Lemma exact_lookup_returns_registered_witness :
  (forall self fuzzy limit,
      DataHandler.index self = DataHandler.index Samples.army_handler ->
      DataHandler.search_by_name self "Army_Size" fuzzy limit
      = Py.slice_to [Samples.army_size] limit)
  /\ (forall self fuzzy,
         DataSearcher.index self = DataHandler.index Samples.army_handler ->
         DataSearcher.search_by_name self "Army_Size" fuzzy
         = ([Samples.army_size], self)).
Proof.
  apply (exact_lookup_returns_registered
           (DataHandler.index Samples.army_handler) "army_size" "Army_Size"
           [Samples.army_size]); reflexivity.
Defined.

(** C10, as stated, fails: the Record found under its own key carries no
    similarity at all, so none of value 1. *)
Lemma exact_lookup_has_no_similarity :
  dict_get (DataHandler.index Samples.army_handler) (Py.lower "Army_Size")
  = Some [Samples.army_size]
  /\ DataHandler.search_by_name Samples.army_handler "Army_Size" true 20
     = [Samples.army_size]
  /\ ~ Forall (fun r => exists s, similarity r = Some s /\ (s == 1)%Q)
         (DataHandler.search_by_name Samples.army_handler "Army_Size" true 20).
Proof.
  split; [reflexivity |]. split; [reflexivity |].
  intros Hall. change (DataHandler.search_by_name _ _ _ _) with [Samples.army_size] in Hall.
  apply Forall_cons in Hall as [[s [Hs _]] _]. discriminate Hs.
Qed.

(** ** Limits *)

Lemma slice_cut_to_limit full : cut_to_limit full (Py.slice_to full).
Proof.
  intros limit. split; [reflexivity |].
  split; [apply slice_to_length |].
  split; [by intros -> |].
  split; [apply slice_to_all | apply slice_to_negative].
Qed.

(** C6, as the code has it: every limited operation returns its list of
    matches cut by the slice [[:limit]].  For a limit of 0 or more the
    result has at most [limit] Records, so none for 0, and all matches once
    the limit reaches their number; for a negative limit [-k] the result is
    the matches without the last [k], which is empty only when there are at
    most [k] of them. *)
Theorem limit_cuts_matches (self : DataHandler.t) (name : string) (fuzzy : bool)
  (query : string) :
  Forall (fun op => exists full, cut_to_limit full op)
         (limited_operations self name fuzzy query).
Proof.
  unfold limited_operations.
  repeat apply Forall_cons_2; try apply Forall_nil_2;
    try (eexists; apply slice_cut_to_limit).
  unfold DataHandler.search_by_name.
  destruct (dict_get _ _) as [entries |].
  - eexists. apply slice_cut_to_limit.
  - destruct fuzzy; cbn [negb].
    + eexists. apply slice_cut_to_limit.
    + exists []. intros limit.
      replace (Py.slice_to [] limit) with (@nil entry)
        by (unfold Py.slice_to; destruct (limit <? 0)%Z; by rewrite take_nil).
      repeat split; try done; cbn; lia.
Qed.

(** C6, as stated, fails: with two matches, the limit -1 gives the first
    of them, not the empty list. *)
Lemma negative_limit_keeps_matches :
  (-1 <= 0)%Z
  /\ DataHandler.get_data_by_type Samples.handler "effect" (-1) <> []
  /\ map name (DataHandler.get_data_by_type Samples.handler "effect" (-1))
     = ["add_gold"]
  /\ map name (DataHandler.get_data_by_type Samples.handler "effect" 20)
     = ["add_gold"; "is_at_war"].
Proof. split; [lia |]. split; [| split]; [| vm_compute; reflexivity ..].
  vm_compute. discriminate.
Qed.

(** * Properties of the parsers *)

Lemma truthy_nonempty s : Py.truthy s = true <-> s <> "".
Proof. destruct s; cbn; split; congruence. Qed.

Lemma In_omap {A B} (f : A -> option B) l y :
  In y (omap f l) -> exists x, In x l /\ f x = Some y.
Proof.
  rewrite <- list_elem_of_In, list_elem_of_omap.
  intros [x [Hx Hf]]. apply list_elem_of_In in Hx. eauto.
Qed.

Lemma parse_data_type_item_shape item e :
  Convert.parse_data_type_item item = Some e ->
  name e <> "" /\ parser_shape "data_type" e.
Proof.
  unfold Convert.parse_data_type_item. intros H.
  repeat case_match; simplify_eq; (split; [by apply truthy_nonempty | done]).
Qed.

Lemma parse_markdown_item_shape item e :
  Convert.parse_markdown_item item = Some e ->
  name e <> "" /\ parser_shape "effect" e.
Proof.
  unfold Convert.parse_markdown_item. intros H.
  repeat case_match; simplify_eq; (split; [by apply truthy_nonempty | done]).
Qed.

Lemma parse_modifier_line_shape line e :
  Convert.parse_modifier_line line = Some e -> parser_shape "modifier" e.
Proof.
  unfold Convert.parse_modifier_line. intros H.
  repeat case_match; simplify_eq; done.
Qed.

(** The Delimiter-Block Parser keeps the invariant of the schema. *)
Lemma parse_data_type_file_invariant content e :
  In e (Convert.parse_data_type_file content) ->
  name e <> "" /\ type e = "data_type" /\ known_kind (type e) = true.
Proof.
  intros Hin. apply In_omap in Hin as [item [_ Hitem]].
  apply parse_data_type_item_shape in Hitem as [Hname [-> _]]. done.
Qed.

(** So does the Heading-Block Parser, and the kind of its Records is
    ['effect'] for every text. *)
Lemma parse_markdown_log_file_invariant content e :
  In e (Convert.parse_markdown_log_file content) ->
  name e <> "" /\ type e = "effect" /\ known_kind (type e) = true.
Proof.
  unfold Convert.parse_markdown_log_file. intros Hin.
  destruct (negb _); [destruct Hin |].
  apply In_omap in Hin as [item [_ Hitem]].
  apply parse_markdown_item_shape in Hitem as [Hname [-> _]]. done.
Qed.

(** The Line-Tag Parser keeps the kind. *)
Lemma parse_modifier_log_file_kind content e :
  In e (Convert.parse_modifier_log_file content) ->
  type e = "modifier" /\ known_kind (type e) = true.
Proof.
  intros Hin. apply In_omap in Hin as [line [_ Hline]].
  apply parse_modifier_line_shape in Hline as [-> _]. done.
Qed.

(** Whatever file [parse_log_file] reads with the Heading-Block Parser,
    the kind is ['effect']. *)
Lemma parse_log_file_kind file_path content e :
  Py.stem file_path <> "modifiers" ->
  In e (Convert.parse_log_file file_path content) ->
  type e = "effect".
Proof.
  unfold Convert.parse_log_file. intros Hstem Hin.
  destruct (String.eqb_spec (Py.stem file_path) "modifiers"); [done |].
  by apply parse_markdown_log_file_invariant in Hin as (_ & ? & _).
Qed.

(** C1: the code at the failing input.  The Records of [triggers.log] and
    of [event_targets.log] come out with the kind ['effect'], the default
    of the dict literal, and not with the kind of their file. *)
Theorem heading_parser_kind_ignores_file :
  Py.stem "docs/triggers.log" = "triggers"
  /\ map (fun e => (name e, type e))
         (Convert.parse_log_file "docs/triggers.log" Samples.triggers_log)
     = [("is_at_war", "effect")]
  /\ map (fun e => (name e, type e))
         (Convert.parse_log_file "docs/event_targets.log" Samples.triggers_log)
     = [("is_at_war", "effect")].
Proof. vm_compute. repeat split; reflexivity. Qed.

(** C3: the code at the failing input.  A tag line whose name is blank
    gives a Record with the empty name; the Line-Tag Parser has no test of
    the name, as the other two parsers have. *)
Theorem modifier_parser_keeps_empty_name :
  Convert.parse_modifier_log_file Samples.nameless_modifier_log
  = [Convert.modifier_entry "" ["x"]]
  /\ Exists (fun e => name e = "")
            (Convert.parse_modifier_log_file Samples.nameless_modifier_log).
Proof.
  assert (Hrun : Convert.parse_modifier_log_file Samples.nameless_modifier_log
                 = [Convert.modifier_entry "" ["x"]])
    by (vm_compute; reflexivity).
  split; [exact Hrun |]. rewrite Hrun. by constructor.
Qed.

(** C4: the code at the failing input.  The text has no newline before its
    heading, so it is not split and the name keeps the heading marker;
    the scopes and the description are as the scenario says. *)
Theorem add_gold_scenario_keeps_marker :
  Convert.parse_markdown_log_file Samples.add_gold_text
  = [Convert.markdown_entry "## add_gold" "Grants gold." ["country"; "province"] []].
Proof. vm_compute. reflexivity. Qed.

(** After a newline the same block gives the Record of the scenario. *)
Example add_gold_after_newline :
  Convert.parse_markdown_log_file Samples.effects_log
  = [Convert.markdown_entry "add_gold" "Grants gold." ["country"; "province"] []].
Proof. vm_compute. reflexivity. Qed.

(** * Search by scope *)

(** [DataSearcher.search_by_scopes] reads [supported_scopes] and compares
    up to letter case, the kind too. *)
Lemma search_by_scopes_spec (self : DataSearcher.t) (scope : string)
  (entry_type : option string) (r : entry) :
  In r (DataSearcher.search_by_scopes self scope entry_type)
  <-> In r (DataSearcher.all_data self)
      /\ (exists s, In s (default [] (supported_scopes r))
                    /\ Py.lower s = Py.lower scope)
      /\ (forall ty, entry_type = Some ty -> Py.lower (type r) = Py.lower ty).
Proof.
  unfold DataSearcher.search_by_scopes.
  rewrite filter_In, andb_true_iff, existsb_exists.
  split; intros (Hin & (s & Hs & Heq) & Hty); (split; [exact Hin |]); split.
  - exists s. split; [exact Hs | by apply String.eqb_eq].
  - intros ty ->. by apply String.eqb_eq.
  - exists s. split; [exact Hs | by apply String.eqb_eq].
  - destruct entry_type as [ty |]; [| reflexivity].
    apply String.eqb_eq. by apply Hty.
Qed.

(** [DataHandler.get_data_by_scope] reads the key [scopes]: it finds
    nothing among Records that do not carry that key. *)
Lemma get_data_by_scope_without_scopes (self : DataHandler.t) (scope : string)
  (limit : Z) :
  Forall (fun e => scopes e = None) (DataHandler.all_data self) ->
  DataHandler.get_data_by_scope self scope limit = [].
Proof.
  unfold DataHandler.get_data_by_scope. intros Hnone.
  replace (List.filter _ _) with (@nil entry).
  - unfold Py.slice_to. destruct (limit <? 0)%Z; by rewrite take_nil.
  - symmetry. induction Hnone as [| e l He _ IH]; [reflexivity |].
    cbn [List.filter]. by rewrite He, IH.
Qed.

(** No parser writes the key [scopes], and the Store Builder adds only the
    category. *)
Lemma parsers_write_no_scopes (e : entry) :
  (exists content, In e (Convert.parse_data_type_file content))
  \/ (exists file_path content, In e (Convert.parse_log_file file_path content)) ->
  scopes e = None.
Proof.
  intros [[content Hin] | (file_path & content & Hin)].
  - apply In_omap in Hin as [x [_ Hx]].
    by apply parse_data_type_item_shape in Hx as (_ & _ & ? & _).
  - unfold Convert.parse_log_file in Hin. destruct (String.eqb _ _).
    + apply In_omap in Hin as [x [_ Hx]].
      by apply parse_modifier_line_shape in Hx as (_ & ? & _).
    + unfold Convert.parse_markdown_log_file in Hin.
      destruct (negb _); [destruct Hin |].
      apply In_omap in Hin as [x [_ Hx]].
      by apply parse_markdown_item_shape in Hx as (_ & _ & ? & _).
Qed.

Lemma all_entries_without_scopes (sources : list (string * list entry)) :
  Forall (fun kv => Forall (fun e => scopes e = None) (snd kv)) sources ->
  Forall (fun e => scopes e = None) (StoreBuilder.all_entries sources).
Proof.
  unfold StoreBuilder.all_entries.
  induction 1 as [| [c es] sources Hes _ IH]; cbn [flat_map]; [constructor |].
  apply Forall_app. split; [| exact IH].
  cbn [snd] in Hes. induction Hes; cbn [map]; constructor; auto.
Qed.

(** C2: the code at the failing input.  The store is built from two logs
    whose Records support the scope [country]; the scope search of the
    server returns nothing for it, while the search of [DataSearcher] finds
    both Records, in any letter case. *)
Theorem scope_search_reads_wrong_key :
  map (fun e => (name e, supported_scopes e)) (DataHandler.all_data Samples.handler)
  = [("add_gold", Some ["country"; "province"]); ("is_at_war", Some ["country"])]
  /\ DataHandler.get_data_by_scope Samples.handler "country" 20 = []
  /\ map name (DataSearcher.search_by_scopes Samples.searcher "Country" None)
     = ["add_gold"; "is_at_war"].
Proof. vm_compute. repeat split; reflexivity. Qed.

(** * The store under search *)

Lemma fuzzy_loop name_lower idx results seen :
  fold_left (DataSearcher.fuzzy_step name_lower) idx (results, seen)
  = (results ++ DataHandler.fuzzy_results idx name_lower,
     seen ++ map (marked name_lower) idx).
Proof.
  revert results seen.
  induction idx as [| [key entries] idx IH]; intros results seen; cbn [fold_left].
  - cbn. by rewrite !app_nil_r.
  - unfold DataSearcher.fuzzy_step at 2, DataHandler.fuzzy_results, marked.
    cbn [flat_map map fst snd].
    destruct (above_threshold _); rewrite IH;
      unfold DataHandler.fuzzy_results; by rewrite <- !app_assoc.
Qed.

Lemma searcher_search_by_name_fuzzy (self : DataSearcher.t) (name : string) :
  dict_get (DataSearcher.index self) (Py.lower name) = None ->
  DataSearcher.search_by_name self name true
  = (Py.slice_to
       (sort_desc (DataHandler.fuzzy_results (DataSearcher.index self) (Py.lower name)))
       20,
     DataSearcher.Make (map (marked (Py.lower name)) (DataSearcher.index self))
                       (DataSearcher.all_data self)).
Proof.
  intros Hmiss. unfold DataSearcher.search_by_name.
  rewrite Hmiss. cbn [negb]. by rewrite fuzzy_loop.
Qed.

(** The Flat Collection is never written. *)
Lemma searcher_keeps_all_data (self : DataSearcher.t) (name : string) (fuzzy : bool) :
  DataSearcher.all_data (snd (DataSearcher.search_by_name self name fuzzy))
  = DataSearcher.all_data self.
Proof.
  unfold DataSearcher.search_by_name.
  destruct (dict_get _ _); [reflexivity |].
  destruct fuzzy; cbn [negb]; [| reflexivity].
  by rewrite fuzzy_loop.
Qed.

(** C5: the code at the failing input.  The fuzzy lookup of [DataSearcher]
    writes the ratio into the Record the index holds: after the call the
    stored Record carries a similarity and the searcher is not what it was.
    [DataHandler] gives the ratio to a copy. *)
Theorem searcher_fuzzy_lookup_writes_index :
  let after := snd (DataSearcher.search_by_name Samples.searcher "add_gol" true) in
  (map similarity <$> dict_get (DataSearcher.index Samples.searcher) "add_gold")
  = Some [None]
  /\ (map similarity <$> dict_get (DataSearcher.index after) "add_gold")
     = Some [Some (14 # 15)%Q]
  /\ after <> Samples.searcher.
Proof.
  intros after. split; [vm_compute; reflexivity |].
  assert (Hafter : (map similarity <$> dict_get (DataSearcher.index after) "add_gold")
                   = Some [Some (14 # 15)%Q]) by (vm_compute; reflexivity).
  split; [exact Hafter |].
  intros Heq. rewrite Heq in Hafter. vm_compute in Hafter. discriminate Hafter.
Qed.

(** * Composite search *)

Lemma filter_checked_ok (p : entry -> result bool) (keep : entry -> bool) l :
  Forall (fun e => p e = Ok (keep e)) l ->
  filter_checked p l = Ok (List.filter keep l).
Proof.
  induction 1 as [| e l He _ IH]; [reflexivity |].
  cbn [filter_checked List.filter]. rewrite He, IH. reflexivity.
Qed.

Lemma filter_filter {A} (p1 p2 : A -> bool) l :
  List.filter p2 (List.filter p1 l) = List.filter (fun x => p1 x && p2 x) l.
Proof.
  induction l as [| x l IH]; [reflexivity |].
  cbn [List.filter]. destruct (p1 x); cbn [List.filter andb]; by rewrite IH.
Qed.

Lemma Forall_filter_keeps {A} (P : A -> Prop) (p : A -> bool) l :
  Forall P l -> Forall P (List.filter p l).
Proof.
  induction 1 as [| x l Hx _ IH]; [constructor |].
  cbn [List.filter]. destruct (p x); [by constructor | exact IH].
Qed.

Lemma filter_true {A} (l : list A) : List.filter (fun _ => true) l = l.
Proof. induction l as [| x l IH]; [reflexivity |]. cbn. by rewrite IH. Qed.

Lemma return_type_is_ok rt e :
  is_Some (return_type e) ->
  DataSearcher.return_type_is rt e = Ok (return_type_matches rt e).
Proof.
  intros [v Hv]. unfold DataSearcher.return_type_is, return_type_matches.
  by rewrite Hv.
Qed.

Lemma category_is_ok c e :
  is_Some (category e) ->
  DataSearcher.category_is c e = Ok (category_matches c e).
Proof.
  intros [v Hv]. unfold DataSearcher.category_is, category_matches.
  by rewrite Hv.
Qed.

Lemma search_by_category_ok (self : DataSearcher.t) (c : string) :
  Forall (fun e => is_Some (category e)) (DataSearcher.all_data self) ->
  DataSearcher.search_by_category self c
  = Ok (List.filter (category_matches c) (DataSearcher.all_data self)).
Proof.
  intros Hcat. apply filter_checked_ok.
  eapply Forall_impl; [exact Hcat |]. intros e. apply category_is_ok.
Qed.

(** A keyword that is none of the four is not read. *)
Lemma advanced_search_ignores_keyword (self : DataSearcher.t)
  (kwargs : gmap string string) (k v : string) :
  k ∉ ["name"; "return_type"; "category"; "description"] ->
  DataSearcher.advanced_search self (<[k := v]> kwargs)
  = DataSearcher.advanced_search self kwargs.
Proof.
  intros Hk. unfold DataSearcher.advanced_search.
  rewrite !lookup_insert_ne; [reflexivity | ..];
    intros ->; apply Hk; set_solver.
Qed.

Lemma advanced_search_ok (self : DataSearcher.t) (kwargs : gmap string string) :
  Forall (fun e => is_Some (category e)) (DataSearcher.all_data self) ->
  (kwargs !! "return_type" = None
   \/ Forall (fun e => is_Some (return_type e)) (DataSearcher.all_data self)) ->
  fst (DataSearcher.advanced_search self kwargs)
  = Ok (List.filter (passes self kwargs) (DataSearcher.all_data self)).
Proof.
  intros Hcat Hrt.
  pose (narrowed :=
          List.filter
            (fun e => match kwargs !! "name" with
                      | Some nm => named_by self nm e
                      | None => true
                      end) (DataSearcher.all_data self)).
  assert (Hfst : fst (DataSearcher.advanced_search self kwargs)
                 = bind (match kwargs !! "return_type" with
                         | Some rt => filter_checked (DataSearcher.return_type_is rt) narrowed
                         | None => Ok narrowed
                         end) (fun results =>
                   bind (match kwargs !! "category" with
                         | Some c => filter_checked (DataSearcher.category_is c) results
                         | None => Ok results
                         end) (fun results =>
                   Ok (match kwargs !! "description" with
                       | Some d => List.filter (DataSearcher.description_has (Py.lower d)) results
                       | None => results
                       end)))).
  { unfold DataSearcher.advanced_search, narrowed, named_by.
    destruct (kwargs !! "name") as [nm |].
    - destruct (DataSearcher.search_by_name self nm true) as [found self'].
      reflexivity.
    - cbn [fst]. by rewrite filter_true. }
  rewrite Hfst. clear Hfst.
  assert (Hstep1 :
            (match kwargs !! "return_type" with
             | Some rt => filter_checked (DataSearcher.return_type_is rt) narrowed
             | None => Ok narrowed
             end)
            = Ok (List.filter
                    (fun e => match kwargs !! "return_type" with
                              | Some rt => return_type_matches rt e
                              | None => true
                              end) narrowed)).
  { destruct (kwargs !! "return_type") as [rt |].
    - destruct Hrt as [Hrt | Hrt]; [discriminate Hrt |].
      apply filter_checked_ok. apply Forall_filter_keeps.
      eapply Forall_impl; [exact Hrt |]. intros e. apply return_type_is_ok.
    - by rewrite filter_true. }
  rewrite Hstep1. cbn [bind]. clear Hstep1.
  set (typed := List.filter _ narrowed).
  assert (Hstep2 :
            (match kwargs !! "category" with
             | Some c => filter_checked (DataSearcher.category_is c) typed
             | None => Ok typed
             end)
            = Ok (List.filter
                    (fun e => match kwargs !! "category" with
                              | Some c => category_matches c e
                              | None => true
                              end) typed)).
  { destruct (kwargs !! "category") as [c |].
    - apply filter_checked_ok. do 2 apply Forall_filter_keeps.
      eapply Forall_impl; [exact Hcat |]. intros e. apply category_is_ok.
    - by rewrite filter_true. }
  rewrite Hstep2. cbn [bind]. clear Hstep2. f_equal.
  replace (match kwargs !! "description" with
           | Some d => List.filter (DataSearcher.description_has (Py.lower d)) _
           | None => _
           end)
    with (List.filter
            (fun e => match kwargs !! "description" with
                      | Some d => DataSearcher.description_has (Py.lower d) e
                      | None => true
                      end)
            (List.filter
               (fun e => match kwargs !! "category" with
                         | Some c => category_matches c e
                         | None => true
                         end) typed)).
  - unfold typed, narrowed. rewrite !filter_filter.
    apply filter_ext. intros e. unfold passes. by rewrite !andb_assoc.
  - destruct (kwargs !! "description"); [reflexivity |].
    apply filter_true.
Qed.

Lemma named_by_spec (self : DataSearcher.t) (nm : string) (e : entry) :
  named_by self nm e = true
  <-> In (name e) (map name (fst (DataSearcher.search_by_name self nm true))).
Proof.
  unfold named_by.
  by rewrite bool_decide_eq_true, elem_of_list_to_set, list_elem_of_In.
Qed.

Lemma passes_spec (self : DataSearcher.t) (kwargs : gmap string string) (r : entry) :
  Forall (fun e => is_Some (category e)) (DataSearcher.all_data self) ->
  In r (DataSearcher.all_data self) ->
  passes self kwargs r = true
  <-> (forall nm, kwargs !! "name" = Some nm ->
                  In (name r) (map name (fst (DataSearcher.search_by_name self nm true))))
      /\ (forall rt, kwargs !! "return_type" = Some rt ->
                     In r (DataSearcher.search_by_type self rt))
      /\ (forall c, kwargs !! "category" = Some c ->
                    exists found, DataSearcher.search_by_category self c = Ok found
                                  /\ In r found)
      /\ (forall d, kwargs !! "description" = Some d ->
                    In r (DataSearcher.search_by_description self d)).
Proof.
  intros Hcat Hin. unfold passes. rewrite !andb_true_iff.
  split.
  - intros [[[Hn Hr] Hc] Hd]. repeat split.
    + intros nm Hk. rewrite Hk in Hn. by apply named_by_spec.
    + intros rt Hk. rewrite Hk in Hr. by apply filter_In.
    + intros c Hk. rewrite Hk in Hc. eexists.
      split; [by apply search_by_category_ok | by apply filter_In].
    + intros d Hk. rewrite Hk in Hd. by apply filter_In.
  - intros (Hn & Hr & Hc & Hd). repeat split.
    + destruct (kwargs !! "name") as [nm |]; [| reflexivity].
      by apply named_by_spec, Hn.
    + destruct (kwargs !! "return_type") as [rt |]; [| reflexivity].
      specialize (Hr rt eq_refl). by apply filter_In in Hr as [_ Hr].
    + destruct (kwargs !! "category") as [c |]; [| reflexivity].
      destruct (Hc c eq_refl) as [found [Hfound Hcin]].
      rewrite search_by_category_ok in Hfound by exact Hcat.
      injection Hfound as <-. by apply filter_In in Hcin as [_ Hcin].
    + destruct (kwargs !! "description") as [d |]; [| reflexivity].
      specialize (Hd d eq_refl). by apply filter_In in Hd as [_ Hd].
Qed.

(** C7, as the code has it: composite search reads four filters, [name],
    [return_type], [category] and [description].  Over a Flat Collection
    whose Records carry the keys the supplied filters read, it returns, in
    the order of the collection, the Records that are in every
    corresponding single-filter result; the name filter keeps the Records
    whose name is among the names the name lookup returns.  A value that
    nothing matches gives no Record and no error.  Any other keyword,
    [kind] included, is not read and changes nothing. *)
Theorem composite_search_intersects (self : DataSearcher.t)
  (kwargs : gmap string string) :
  Forall (fun e => is_Some (category e)) (DataSearcher.all_data self) ->
  (kwargs !! "return_type" = None
   \/ Forall (fun e => is_Some (return_type e)) (DataSearcher.all_data self)) ->
  exists results,
    fst (DataSearcher.advanced_search self kwargs) = Ok results
    /\ results = List.filter (passes self kwargs) (DataSearcher.all_data self)
    /\ (forall r,
           In r results
           <-> In r (DataSearcher.all_data self)
               /\ (forall nm, kwargs !! "name" = Some nm ->
                     In (name r)
                        (map name (fst (DataSearcher.search_by_name self nm true))))
               /\ (forall rt, kwargs !! "return_type" = Some rt ->
                     In r (DataSearcher.search_by_type self rt))
               /\ (forall c, kwargs !! "category" = Some c ->
                     exists found,
                       DataSearcher.search_by_category self c = Ok found
                       /\ In r found)
               /\ (forall d, kwargs !! "description" = Some d ->
                     In r (DataSearcher.search_by_description self d)))
    /\ (forall k v,
           k ∉ ["name"; "return_type"; "category"; "description"] ->
           fst (DataSearcher.advanced_search self (<[k := v]> kwargs)) = Ok results).
Proof.
  intros Hcat Hrt. eexists. split; [by apply advanced_search_ok |].
  split; [reflexivity |]. split.
  - intros r. rewrite filter_In. split.
    + intros [Hin Hpass]. split; [exact Hin |]. by apply passes_spec.
    + intros [Hin Hall]. split; [exact Hin |]. by apply passes_spec.
  - intros k v Hk. rewrite advanced_search_ignores_keyword by exact Hk.
    by apply advanced_search_ok.
Qed.

Lemma composite_search_intersects_witness :
  exists results,
    fst (DataSearcher.advanced_search Samples.army_searcher Samples.kind_and_category)
    = Ok results
    /\ results = List.filter (passes Samples.army_searcher Samples.kind_and_category)
                             (DataSearcher.all_data Samples.army_searcher)
    /\ (forall r,
           In r results
           <-> In r (DataSearcher.all_data Samples.army_searcher)
               /\ (forall nm, Samples.kind_and_category !! "name" = Some nm ->
                     In (name r)
                        (map name (fst (DataSearcher.search_by_name
                                          Samples.army_searcher nm true))))
               /\ (forall rt, Samples.kind_and_category !! "return_type" = Some rt ->
                     In r (DataSearcher.search_by_type Samples.army_searcher rt))
               /\ (forall c, Samples.kind_and_category !! "category" = Some c ->
                     exists found,
                       DataSearcher.search_by_category Samples.army_searcher c = Ok found
                       /\ In r found)
               /\ (forall d, Samples.kind_and_category !! "description" = Some d ->
                     In r (DataSearcher.search_by_description Samples.army_searcher d)))
    /\ (forall k v,
           k ∉ ["name"; "return_type"; "category"; "description"] ->
           fst (DataSearcher.advanced_search Samples.army_searcher
                  (<[k := v]> Samples.kind_and_category)) = Ok results).
Proof.
  apply (composite_search_intersects Samples.army_searcher Samples.kind_and_category).
  - repeat constructor; eexists; reflexivity.
  - left. vm_compute. reflexivity.
Defined.

(** C7, as stated, fails: with the filters [kind="modifier"] and
    [category="army"] composite search returns both Records of the
    category; the effect among them is not in the result of the search by
    kind, so the result is not the intersection. *)
Lemma composite_search_ignores_kind :
  fst (DataSearcher.advanced_search Samples.army_searcher Samples.kind_and_category)
  = Ok [Samples.army_size; Samples.raise_army]
  /\ DataHandler.get_data_by_type Samples.army_handler "modifier" 20
     = [Samples.army_size]
  /\ DataSearcher.search_by_category Samples.army_searcher "army"
     = Ok [Samples.army_size; Samples.raise_army]
  /\ ~ (forall r,
           In r [Samples.army_size; Samples.raise_army]
           <-> In r (DataHandler.get_data_by_type Samples.army_handler "modifier" 20)
               /\ In r [Samples.army_size; Samples.raise_army]).
Proof.
  split; [vm_compute; reflexivity |].
  split; [vm_compute; reflexivity |].
  split; [vm_compute; reflexivity |].
  intros Hall.
  destruct (proj1 (Hall Samples.raise_army)) as [Hkind _]; [right; by left |].
  vm_compute in Hkind. destruct Hkind as [Heq | []]. discriminate Heq.
Qed.

(** The slip beside it: the [return_type] filter reads the key without a
    default, so a Record that has no such key stops the search, where
    [search_by_type] passes over it. *)
Example composite_search_return_type_key :
  fst (DataSearcher.advanced_search Samples.army_searcher (<["return_type" := "int"]> ∅))
  = KeyError "return_type"
  /\ DataSearcher.search_by_type Samples.army_searcher "int" = [].
Proof. vm_compute. split; reflexivity. Qed.

(** * Regex search *)

(** The three ways of the search: the list of the Records of the Flat
    Collection whose name the compiled pattern finds a match in, in the
    order of the collection; the empty list for [re.error]; and, for an
    exception of any other class, that exception. *)
Lemma regex_search_outcomes (regex : Type)
  (re_compile : string -> bool -> compile_result regex)
  (re_search : regex -> string -> bool) (self : DataSearcher.t) (pattern : string) :
  let found := DataSearcher.search_by_regex regex re_compile re_search self pattern in
  (exists rx,
      re_compile pattern true = Compiled rx
      /\ found = Returns (List.filter (fun e => re_search rx (name e))
                                      (DataSearcher.all_data self)))
  \/ (re_compile pattern true = ReError /\ found = Returns [])
  \/ (exists exception,
         re_compile pattern true = OtherError exception
         /\ found = Raises exception).
Proof.
  intros found. subst found. unfold DataSearcher.search_by_regex.
  destruct (re_compile pattern true) as [rx | | exception]; eauto.
Qed.

(** C8: the code at the failing input.  For the pattern [a{99999999999}]
    [re.compile] raises [OverflowError], the repetition count being too
    large; the search has a handler for [re.error] only, so it does not
    return the empty list: the [OverflowError] leaves it, whatever the
    store holds. *)
Theorem regex_search_lets_overflow_out (regex : Type)
  (re_compile : string -> bool -> compile_result regex)
  (re_search : regex -> string -> bool) (self : DataSearcher.t) :
  re_compile Samples.overflowing_pattern true = OtherError "OverflowError" ->
  DataSearcher.search_by_regex regex re_compile re_search self
                               Samples.overflowing_pattern
  = Raises "OverflowError"
  /\ DataSearcher.search_by_regex regex re_compile re_search self
                                  Samples.overflowing_pattern
     <> Returns [].
Proof.
  intros Hoverflow. unfold DataSearcher.search_by_regex. rewrite Hoverflow.
  split; [reflexivity | discriminate].
Qed.

Lemma regex_search_lets_overflow_out_witness :
  DataSearcher.search_by_regex string Samples.re_compile Samples.re_search
                               Samples.searcher Samples.overflowing_pattern
  = Raises "OverflowError"
  /\ DataSearcher.search_by_regex string Samples.re_compile Samples.re_search
                                  Samples.searcher Samples.overflowing_pattern
     <> Returns [].
Proof.
  apply (regex_search_lets_overflow_out string Samples.re_compile
           Samples.re_search Samples.searcher).
  reflexivity.
Defined.

(** The two ways the claim speaks of, on the sample store: a pattern that
    is not well formed gives the empty list, and a pattern that compiles
    gives the Records whose name it matches, in any letter case. *)
Example regex_search_sample :
  DataSearcher.search_by_regex string Samples.re_compile Samples.re_search
                               Samples.searcher "(" = Returns []
  /\ (fun found => match found with
                    | Returns l => map name l
                    | Raises _ => []
                    end)
       (DataSearcher.search_by_regex string Samples.re_compile Samples.re_search
                                     Samples.searcher "GOLD")
     = ["add_gold"].
Proof. vm_compute. split; reflexivity. Qed.

(** * The matcher ends

    The work list of [matching_blocks] is empty before its fuel is: a
    block found in [a[alo:ahi]] lies inside that range, so the ranges left
    to search are shorter. *)

Section MatcherEnds.

Variables a b : list ascii.

Lemma row_inside ai i alo ahi blo bhi bs j prev old best bound :
  alo <= i -> i < ahi -> bound <= i - alo ->
  prev <= bound -> Forall (fun k => k <= bound) old ->
  inside alo ahi best ->
  Forall (fun k => k <= S bound)
         (fst (Difflib.row b ai i blo bhi bs j prev old best))
  /\ inside alo ahi (snd (Difflib.row b ai i blo bhi bs j prev old best)).
Proof.
  intros Hlo Hhi Hbound. revert j prev old best.
  induction bs as [| bj bs IH]; intros j prev old best Hprev Hold Hbest;
    cbn [Difflib.row]; [by split |].
  set (hit := Ascii.eqb ai bj && _ && _ && _).
  set (k := if hit then prev + 1 else 0).
  set (best' := if hit && (Difflib.size best <? k)
                then (i + 1 - k, j + 1 - k, k) else best).
  assert (Hk : k <= S bound) by (unfold k; destruct hit; lia).
  assert (Hbest' : inside alo ahi best').
  { unfold best'. destruct (hit && _); [| exact Hbest].
    unfold inside, Difflib.size. cbn [fst snd]. lia. }
  assert (Hhd : hd 0 old <= bound) by (destruct Hold; cbn; lia).
  assert (Htl : Forall (fun k => k <= bound) (List.tl old))
    by (destruct Hold; cbn; [constructor | done]).
  specialize (IH (S j) (hd 0 old) (List.tl old) best' Hhd Htl Hbest').
  destruct (Difflib.row b ai i blo bhi bs (S j) (hd 0 old) (List.tl old) best')
    as [new best''].
  cbn [fst snd] in *. destruct IH as [IH1 IH2].
  split; [by constructor | exact IH2].
Qed.

Lemma rows_inside as_ i alo ahi blo bhi j2len best :
  Forall (fun k => k <= i - alo) j2len ->
  inside alo ahi best ->
  inside alo ahi (Difflib.rows b as_ i alo ahi blo bhi j2len best).
Proof.
  revert i j2len best.
  induction as_ as [| ai as_ IH]; intros i j2len best Hlen Hbest;
    cbn [Difflib.rows]; [exact Hbest |].
  destruct ((alo <=? i) && (i <? ahi)) eqn:Hrange.
  - apply andb_true_iff in Hrange as [Hlo Hhi].
    apply Nat.leb_le in Hlo. apply Nat.ltb_lt in Hhi.
    pose proof (row_inside ai i alo ahi blo bhi b 0 0 j2len best (i - alo)
                  Hlo Hhi (Nat.le_refl _) (Nat.le_0_l _) Hlen Hbest) as Hrow.
    destruct (Difflib.row b ai i blo bhi b 0 0 j2len best) as [new best'].
    cbn [fst snd] in Hrow. destruct Hrow as [Hnew Hbest'].
    apply IH; [| exact Hbest'].
    eapply Forall_impl; [exact Hnew |]. cbn. intros k Hk. lia.
  - apply IH; [| exact Hbest].
    eapply Forall_impl; [exact Hlen |]. cbn. intros k Hk. lia.
Qed.

Lemma extend_back_inside fuel alo ahi blo m :
  inside alo ahi m -> inside alo ahi (Difflib.extend_back a b fuel alo blo m).
Proof.
  revert m. induction fuel as [| fuel IH]; intros [[i j] k] Hm;
    cbn [Difflib.extend_back]; [exact Hm |].
  destruct ((alo <? i) && (blo <? j) && _) eqn:Hmore; [| exact Hm].
  apply IH. apply andb_true_iff in Hmore as [Hmore _].
  apply andb_true_iff in Hmore as [Hi _]. apply Nat.ltb_lt in Hi.
  unfold inside, Difflib.size in *. cbn [fst snd] in *. lia.
Qed.

Lemma extend_forward_inside fuel alo ahi bhi m :
  inside alo ahi m -> inside alo ahi (Difflib.extend_forward a b fuel ahi bhi m).
Proof.
  revert m. induction fuel as [| fuel IH]; intros [[i j] k] Hm;
    cbn [Difflib.extend_forward]; [exact Hm |].
  destruct ((i + k <? ahi) && (j + k <? bhi) && _) eqn:Hmore; [| exact Hm].
  apply IH. apply andb_true_iff in Hmore as [Hmore _].
  apply andb_true_iff in Hmore as [Hi _]. apply Nat.ltb_lt in Hi.
  unfold inside, Difflib.size in *. cbn [fst snd] in *. lia.
Qed.

Lemma extend_back_ends fuel extra alo blo m :
  fst (fst m) <= fuel ->
  Difflib.extend_back a b (fuel + extra) alo blo m
  = Difflib.extend_back a b fuel alo blo m.
Proof.
  revert m. induction fuel as [| fuel IH]; intros [[i j] k] Hfuel;
    cbn [fst] in Hfuel.
  - assert (i = 0) as -> by lia.
    destruct extra; [reflexivity |]. cbn [Nat.add Difflib.extend_back].
    by replace (alo <? 0) with false by (symmetry; apply Nat.ltb_ge; lia).
  - cbn [Nat.add Difflib.extend_back].
    destruct ((alo <? i) && (blo <? j) && _); [| reflexivity].
    apply IH. cbn [fst]. lia.
Qed.

Lemma extend_forward_ends fuel extra ahi bhi m :
  ahi - (fst (fst m) + Difflib.size m) <= fuel ->
  Difflib.extend_forward a b (fuel + extra) ahi bhi m
  = Difflib.extend_forward a b fuel ahi bhi m.
Proof.
  revert m. induction fuel as [| fuel IH]; intros [[i j] k] Hfuel;
    unfold Difflib.size in Hfuel; cbn [fst snd] in Hfuel.
  - destruct extra; [reflexivity |]. cbn [Nat.add Difflib.extend_forward].
    by replace (i + k <? ahi) with false by (symmetry; apply Nat.ltb_ge; lia).
  - cbn [Nat.add Difflib.extend_forward].
    destruct ((i + k <? ahi) && (j + k <? bhi) && _); [| reflexivity].
    apply IH. unfold Difflib.size. cbn [fst snd]. lia.
Qed.

(** The two loops of [find_longest_match] run to their end: with more
    rounds allowed they give the same block. *)
Lemma find_longest_match_ends alo ahi blo bhi extra :
  alo <= ahi -> ahi <= length a ->
  Difflib.find_longest_match a b alo ahi blo bhi
  = Difflib.extend_forward a b (length a + extra) ahi bhi
      (Difflib.extend_back a b (length a + extra) alo blo
         (Difflib.rows b a 0 alo ahi blo bhi [] (alo, blo, 0))).
Proof.
  intros Hrange Hlen. unfold Difflib.find_longest_match.
  assert (Hrows : inside alo ahi (Difflib.rows b a 0 alo ahi blo bhi [] (alo, blo, 0))).
  { apply rows_inside; [constructor |].
    unfold inside, Difflib.size. cbn [fst snd]. lia. }
  rewrite extend_back_ends by (destruct Hrows; lia).
  rewrite extend_forward_ends; [reflexivity |]. lia.
Qed.

Lemma find_longest_match_inside alo ahi blo bhi :
  alo <= ahi ->
  inside alo ahi (Difflib.find_longest_match a b alo ahi blo bhi).
Proof.
  intros Hrange. unfold Difflib.find_longest_match.
  apply extend_forward_inside, extend_back_inside, rows_inside.
  - constructor.
  - unfold inside, Difflib.size. cbn [fst snd]. lia.
Qed.

Lemma matching_blocks_ends fuel extra queue found :
  ordered queue -> rounds queue <= fuel ->
  Difflib.matching_blocks a b (fuel + extra) queue found
  = Difflib.matching_blocks a b fuel queue found.
Proof.
  revert queue found.
  induction fuel as [| fuel IH]; intros queue found Hord Hrounds.
  - destruct queue as [| [[[alo ahi] blo] bhi] queue].
    + by destruct extra.
    + cbn in Hrounds. lia.
  - destruct queue as [| [[[alo ahi] blo] bhi] queue]; [reflexivity |].
    cbn [Nat.add Difflib.matching_blocks].
    apply Forall_cons in Hord as [Hrange Hord].
    pose proof (find_longest_match_inside alo ahi blo bhi Hrange) as Hin.
    destruct (Difflib.find_longest_match a b alo ahi blo bhi) as [[i j] k].
    unfold inside, Difflib.size in Hin. cbn [fst snd] in Hin.
    destruct Hin as [Hlo Hhi].
    unfold rounds in Hrounds. cbn [map list_sum fold_right] in Hrounds.
    change (fold_right Init.Nat.add 0 ?l) with (list_sum l) in Hrounds.
    fold (rounds queue) in Hrounds.
    destruct (0 <? k) eqn:Hk.
    + apply Nat.ltb_lt in Hk. apply IH.
      * destruct ((i + k <? ahi) && (j + k <? bhi));
          destruct ((alo <? i) && (blo <? j));
          repeat (apply Forall_cons; split); try exact Hord; cbn; lia.
      * destruct ((i + k <? ahi) && (j + k <? bhi));
          destruct ((alo <? i) && (blo <? j));
          unfold rounds; cbn [map list_sum fold_right];
          change (fold_right Init.Nat.add 0 ?l) with (list_sum l);
          fold (rounds queue); lia.
    + apply IH; [exact Hord | lia].
Qed.

End MatcherEnds.

(** More fuel changes nothing: [ratio] sums the blocks of the whole run. *)
Lemma matches_all_blocks (a b : list ascii) (extra : nat) :
  Difflib.matches a b
  = list_sum (map Difflib.size
                  (Difflib.matching_blocks a b (2 * length a + 1 + extra)
                     [(0, length a, 0, length b)] [])).
Proof.
  unfold Difflib.matches.
  rewrite (matching_blocks_ends a b (2 * length a + 1) extra); [reflexivity | |].
  - repeat constructor. lia.
  - unfold rounds. cbn [map list_sum fold_right]. lia.
Qed.

(** * Further properties

    ** Strings *)

Lemma lower_char_idempotent c : Py.lower_char (Py.lower_char c) = Py.lower_char c.
Proof. destruct c as [[] [] [] [] [] [] [] []]; vm_compute; reflexivity. Qed.

Lemma lower_idempotent s : Py.lower (Py.lower s) = Py.lower s.
Proof.
  induction s as [| c s IH]; [reflexivity |].
  cbn [Py.lower]. by rewrite lower_char_idempotent, IH.
Qed.

Lemma lower_empty s : Py.lower s = "" <-> s = "".
Proof. destruct s; cbn; split; congruence. Qed.

Lemma contains_empty s : Py.contains "" s = true.
Proof. by destruct s. Qed.

Lemma lstrip_fixed s : Py.lstrip (Py.lstrip s) = Py.lstrip s.
Proof.
  induction s as [| c s IH]; [reflexivity |].
  cbn [Py.lstrip]. destruct (Py.isspace c) eqn:Hc; [exact IH |].
  cbn [Py.lstrip]. by rewrite Hc.
Qed.

Lemma rstrip_fixed s : Py.rstrip (Py.rstrip s) = Py.rstrip s.
Proof.
  induction s as [| c s IH]; [reflexivity |].
  cbn [Py.rstrip]. destruct (Py.rstrip s) as [| c' r] eqn:Hr.
  - destruct (Py.isspace c) eqn:Hc; [reflexivity |].
    cbn [Py.rstrip]. by rewrite Hc.
  - cbn [Py.rstrip] in *. by rewrite IH.
Qed.

Lemma rstrip_keeps_head s : Py.lstrip s = s -> Py.lstrip (Py.rstrip s) = Py.rstrip s.
Proof.
  destruct s as [| c s]; [reflexivity |].
  cbn [Py.lstrip]. destruct (Py.isspace c) eqn:Hc.
  - intros Hs. exfalso.
    assert (Hlen : String.length (Py.lstrip s) <= String.length s).
    { clear. induction s as [| c s IH]; cbn; [lia |].
      destruct (Py.isspace c); cbn; lia. }
    rewrite Hs in Hlen. cbn in Hlen. lia.
  - intros _. cbn [Py.rstrip].
    destruct (Py.rstrip s); rewrite ?Hc; cbn [Py.lstrip]; by rewrite Hc.
Qed.

Lemma strip_idempotent s : Py.strip (Py.strip s) = Py.strip s.
Proof.
  unfold Py.strip.
  rewrite (rstrip_keeps_head (Py.lstrip s)) by apply lstrip_fixed.
  apply rstrip_fixed.
Qed.

Lemma rstrip_no_space s :
  all_chars (fun c => negb (Py.isspace c)) s = true -> Py.rstrip s = s.
Proof.
  induction s as [| c s IH]; [reflexivity |].
  cbn [all_chars Py.rstrip]. intros [Hc Hs]%andb_true_iff.
  rewrite (IH Hs). apply negb_true_iff in Hc. rewrite Hc. by destruct s.
Qed.

Lemma strip_no_space s :
  all_chars (fun c => negb (Py.isspace c)) s = true -> Py.strip s = s.
Proof.
  intros Hs. unfold Py.strip.
  replace (Py.lstrip s) with s; [by apply rstrip_no_space |].
  destruct s as [| c s]; [reflexivity |].
  cbn [all_chars] in Hs. apply andb_true_iff in Hs as [Hc _].
  apply negb_true_iff in Hc. cbn [Py.lstrip]. by rewrite Hc.
Qed.

Lemma word_is_no_space c : Py.isword c = true -> negb (Py.isspace c) = true.
Proof. destruct c as [[] [] [] [] [] [] [] []]; vm_compute; congruence. Qed.

(** ** The matcher of patterns *)

Lemma first_some_found {A B} (f : A -> option B) l y :
  Re.first_some f l = Some y -> exists x, In x l /\ f x = Some y.
Proof.
  induction l as [| x l IH]; cbn; [discriminate |].
  destruct (f x) eqn:Hx.
  - intros [= <-]. exists x. split; [by left | exact Hx].
  - intros Hy. destruct (IH Hy) as [x' [Hin Hx']]. exists x'. split; [by right | exact Hx'].
Qed.

Lemma runs_all p s taken rest :
  In (taken, rest) (Re.runs p s) -> all_chars p taken = true.
Proof.
  revert taken rest. induction s as [| c s IH]; intros taken rest; cbn [Re.runs].
  - intros [[= <- _] | []]. reflexivity.
  - intros [[= <- _] | Hin]; [reflexivity |].
    destruct (p c) eqn:Hc; [| destruct Hin].
    apply in_map_iff in Hin as [[r t] [[= <- _] Hin]].
    cbn [all_chars]. rewrite Hc. by apply IH in Hin.
Qed.

(** A group under a greedy plus holds only characters of its class. *)
Lemma run_plus_group p r s groups unread :
  Re.run (Re.Atom p Re.Plus true :: r) s = Some (groups, unread) ->
  exists g rest_groups, groups = g :: rest_groups /\ all_chars p g = true.
Proof.
  cbn [Re.run]. intros Hrun.
  apply first_some_found in Hrun as [[taken rest] [Hin Hrun]].
  destruct (Re.run r rest) as [[groups' unread'] |]; [| discriminate].
  cbn [Re.captures] in Hrun. injection Hrun as <- <-.
  exists taken, groups'. split; [reflexivity |].
  unfold Re.candidates in Hin. cbn [Re.q Re.cls] in Hin.
  apply in_rev in Hin. apply (runs_all p s taken rest).
  destruct (Re.runs p s) as [| x l]; [destruct Hin |].
  right. exact Hin.
Qed.

(** ** What the parsers give *)

Lemma all_chars_impl (p1 p2 : ascii -> bool) s :
  (forall c, p1 c = true -> p2 c = true) ->
  all_chars p1 s = true -> all_chars p2 s = true.
Proof.
  intros Himpl. induction s as [| c s IH]; [reflexivity |].
  cbn [all_chars]. intros [Hc Hs]%andb_true_iff.
  by rewrite (Himpl c Hc), (IH Hs).
Qed.

Lemma Forall_omap {A B} (P : B -> Prop) (f : A -> option B) l :
  (forall x y, f x = Some y -> P y) -> Forall P (omap f l).
Proof.
  intros Hf. apply Forall_forall. intros y Hy.
  apply list_elem_of_In, In_omap in Hy as [x [_ Hx]]. by eapply Hf.
Qed.

Lemma parse_data_type_item_keys item e :
  Convert.parse_data_type_item item = Some e -> data_type_keys e.
Proof.
  unfold Convert.parse_data_type_item. intros H.
  repeat case_match; simplify_eq; repeat split; eauto.
Qed.

Lemma parse_markdown_item_keys item e :
  Convert.parse_markdown_item item = Some e -> effect_keys e.
Proof.
  unfold Convert.parse_markdown_item. intros H.
  repeat case_match; simplify_eq; repeat split; eauto.
Qed.

Lemma parse_modifier_line_keys line e :
  Convert.parse_modifier_line line = Some e -> modifier_keys e.
Proof.
  unfold Convert.parse_modifier_line. intros H.
  repeat case_match; simplify_eq; repeat split; eauto.
Qed.

(** X1: for every text, the Records of the Delimiter-Block Parser have a
    non-empty name, the kind ['data_type'] and the keys of a data type;
    those of the Heading-Block Parser have a non-empty name, the kind
    ['effect'] and the two scope keys; those of the Line-Tag Parser have the
    kind ['modifier'], an empty description and the key [categories].  No
    parser writes a category, a similarity or the key [scopes]. *)
Theorem parsers_fix_kind_and_keys (content : string) :
  Forall (fun e => name e <> "" /\ parser_shape "data_type" e /\ data_type_keys e)
         (Convert.parse_data_type_file content)
  /\ Forall (fun e => name e <> "" /\ parser_shape "effect" e /\ effect_keys e)
            (Convert.parse_markdown_log_file content)
  /\ Forall (fun e => parser_shape "modifier" e /\ modifier_keys e)
            (Convert.parse_modifier_log_file content).
Proof.
  split; [| split].
  - apply Forall_omap. intros item e He.
    pose proof (parse_data_type_item_shape item e He) as [Hn Hs].
    split; [exact Hn |]. split; [exact Hs | by eapply parse_data_type_item_keys].
  - unfold Convert.parse_markdown_log_file. destruct (negb _); [constructor |].
    apply Forall_omap. intros item e He.
    pose proof (parse_markdown_item_shape item e He) as [Hn Hs].
    split; [exact Hn |]. split; [exact Hs | by eapply parse_markdown_item_keys].
  - apply Forall_omap. intros line e He.
    split; [by eapply parse_modifier_line_shape | by eapply parse_modifier_line_keys].
Qed.

Lemma comma_list_clean text : Forall clean_item (Convert.comma_list text).
Proof.
  unfold Convert.comma_list. apply Forall_forall. intros c Hc.
  apply list_elem_of_In, in_map_iff in Hc as [x [<- Hx]].
  apply filter_In in Hx as [_ Hx].
  split; [by apply truthy_nonempty | apply strip_idempotent].
Qed.

Lemma markdown_lines_clean lines sc tg dl :
  Forall clean_item sc -> Forall clean_item tg ->
  Forall clean_item (fst (fst (fold_left Convert.markdown_line lines (sc, tg, dl))))
  /\ Forall clean_item (snd (fst (fold_left Convert.markdown_line lines (sc, tg, dl)))).
Proof.
  revert sc tg dl. induction lines as [| line lines IH]; intros sc tg dl Hsc Htg;
    cbn [fold_left]; [by split |].
  unfold Convert.markdown_line at 2 4.
  repeat case_match; apply IH; auto using comma_list_clean.
Qed.

(** X2: in every Record of the Heading-Block Parser the supported scopes
    and the supported targets hold no empty item and no item with a blank
    at either end. *)
Theorem heading_scopes_are_clean (content : string) :
  Forall (fun e => exists sc tg,
              supported_scopes e = Some sc /\ supported_targets e = Some tg
              /\ Forall clean_item sc /\ Forall clean_item tg)
         (Convert.parse_markdown_log_file content).
Proof.
  unfold Convert.parse_markdown_log_file. destruct (negb _); [constructor |].
  apply Forall_omap. intros item e. unfold Convert.parse_markdown_item.
  destruct (negb _); [discriminate |].
  destruct (negb _); [discriminate |].
  pose proof (markdown_lines_clean
                (List.tl (Py.split item Convert.newline)) [] [] []
                (Forall_nil_2 _) (Forall_nil_2 _)) as [Hsc Htg].
  destruct (fold_left _ _ _) as [[sc tg] dl]. cbn [fst snd] in Hsc, Htg.
  destruct (Py.truthy _); [| discriminate].
  intros [= <-]. exists sc, tg. by cbn.
Qed.

(** X3: in every Record of the Line-Tag Parser the categories hold no
    empty item, no item with a blank at either end, and never the token
    ['All']. *)
Theorem modifier_categories_are_clean (content : string) :
  Forall (fun e => exists cats,
              categories e = Some cats
              /\ Forall (fun c => clean_item c /\ c <> "All") cats)
         (Convert.parse_modifier_log_file content).
Proof.
  apply Forall_omap. intros line e. unfold Convert.parse_modifier_line.
  destruct (_ || _); [discriminate |].
  destruct (Re.match_ _ _) as [[| g1 [| g2 [| ? ?]]] |]; try discriminate.
  intros [= <-]. eexists. split; [reflexivity |].
  apply Forall_forall. intros c Hc.
  apply list_elem_of_In, in_map_iff in Hc as [x [<- Hx]].
  apply filter_In in Hx as [_ Hx]. apply andb_true_iff in Hx as [Hx1 Hx2].
  split; [split; [by apply truthy_nonempty | apply strip_idempotent] |].
  apply negb_true_iff in Hx2. by apply String.eqb_neq in Hx2.
Qed.

Lemma parse_data_type_item_name item e :
  Convert.parse_data_type_item item = Some e -> Py.strip (name e) = name e.
Proof.
  unfold Convert.parse_data_type_item.
  destruct (negb _); [discriminate |].
  set (first_line := Py.strip (hd "" _)).
  destruct (Re.match_ Convert.declaration_re first_line)
    as [[| g1 [| args_str [| ? ?]]] |] eqn:Hmatch;
    destruct (fold_left _ _ _) as [[d dt] rt];
    (destruct (Py.truthy _); [| discriminate]); intros [= <-];
    cbn [name Convert.data_type_entry]; try apply strip_idempotent.
  unfold Re.match_ in Hmatch.
  destruct (Re.run Convert.declaration_re first_line) as [[groups unread] |] eqn:Hrun;
    [| discriminate].
  cbn in Hmatch. injection Hmatch as ->.
  apply run_plus_group in Hrun as (g & rest & [= <- _] & Hword).
  apply strip_no_space. eapply all_chars_impl; [| exact Hword].
  apply word_is_no_space.
Qed.

(** X4: the name of every Record, from any of the three parsers, has no
    blank at either end. *)
Theorem names_are_stripped (file_path content : string) :
  Forall (fun e => Py.strip (name e) = name e) (Convert.parse_data_type_file content)
  /\ Forall (fun e => Py.strip (name e) = name e)
            (Convert.parse_log_file file_path content).
Proof.
  split.
  - apply Forall_omap. intros item e. apply parse_data_type_item_name.
  - unfold Convert.parse_log_file. destruct (String.eqb _ _).
    + apply Forall_omap. intros line e. unfold Convert.parse_modifier_line.
      repeat case_match; intros; simplify_eq; apply strip_idempotent.
    + unfold Convert.parse_markdown_log_file. destruct (negb _); [constructor |].
      apply Forall_omap. intros item e. unfold Convert.parse_markdown_item.
      repeat case_match; intros; simplify_eq; apply strip_idempotent.
Qed.

(** ** The Store Builder *)

Lemma dict_get_append_eq {V} (d : list (string * list V)) k v :
  dict_get (StoreBuilder.dict_append d k v) k
  = Some (default [] (dict_get d k) ++ [v]).
Proof.
  induction d as [| [k' vs] d IH]; cbn.
  - by rewrite String.eqb_refl.
  - destruct (String.eqb k k') eqn:Hk; cbn; rewrite Hk; [reflexivity | exact IH].
Qed.

Lemma dict_get_append_ne {V} (d : list (string * list V)) k k' v :
  k <> k' ->
  dict_get (StoreBuilder.dict_append d k v) k' = dict_get d k'.
Proof.
  intros Hne. induction d as [| [k0 vs] d IH]; cbn.
  - apply String.eqb_neq in Hne. by rewrite String.eqb_sym, Hne.
  - destruct (String.eqb k k0) eqn:Hk; cbn.
    + apply String.eqb_eq in Hk as <-.
      apply String.eqb_neq in Hne. by rewrite String.eqb_sym, Hne.
    + by rewrite IH.
Qed.

Lemma dict_append_keys {V} (d : list (string * list V)) k v :
  (In k (map fst d) /\ map fst (StoreBuilder.dict_append d k v) = map fst d)
  \/ (~ In k (map fst d)
      /\ map fst (StoreBuilder.dict_append d k v) = map fst d ++ [k]).
Proof.
  induction d as [| [k' vs] d IH]; cbn.
  - right. split; [tauto | reflexivity].
  - destruct (String.eqb_spec k k') as [-> | Hne]; cbn.
    + left. split; [by left | reflexivity].
    + destruct IH as [[Hin Heq] | [Hout Heq]]; rewrite Heq.
      * left. split; [by right | reflexivity].
      * right. split; [| reflexivity]. intros [Hk | Hk]; [congruence | tauto].
Qed.

Lemma dict_append_size {V} (d : list (string * list V)) k v :
  list_sum (map (fun kv => length (snd kv)) (StoreBuilder.dict_append d k v))
  = S (list_sum (map (fun kv => length (snd kv)) d)).
Proof.
  induction d as [| [k' vs] d IH]; [reflexivity |].
  cbn [StoreBuilder.dict_append].
  destruct (String.eqb k k'); cbn [map snd];
    repeat match goal with
           | |- context [list_sum (?x :: ?l)] =>
               change (list_sum (x :: l)) with (x + list_sum l)
           end.
  - rewrite length_app. cbn [length]. lia.
  - rewrite IH. lia.
Qed.

Lemma index_by_name_tagged sources :
  StoreBuilder.index_by_name sources = fold_left register (tagged sources) [].
Proof.
  unfold StoreBuilder.index_by_name. generalize (@nil (string * list entry)).
  induction sources as [| [c es] sources IH]; intros acc; [reflexivity |].
  cbn [fold_left tagged flat_map]. rewrite fold_left_app, IH. f_equal.
  clear. revert acc. induction es as [| e es IH]; intros acc; [reflexivity |].
  cbn [fold_left map]. apply IH.
Qed.

Lemma registered_tagged sources k :
  registered sources k
  = map (fun p => StoreBuilder.indexed_entry (fst p) (snd p))
        (List.filter (fun p => String.eqb (Py.lower (name (snd p))) k)
                     (tagged sources)).
Proof.
  unfold registered, tagged.
  induction sources as [| [c es] sources IH]; [reflexivity |].
  cbn [flat_map]. rewrite List.filter_app, map_app, IH. f_equal.
  clear. induction es as [| e es IH]; [reflexivity |].
  cbn [map List.filter fst snd]. destruct (String.eqb _ k); cbn [map]; by rewrite IH.
Qed.

Lemma indexed_entry_name c e : name (StoreBuilder.indexed_entry c e) = name e.
Proof. unfold StoreBuilder.indexed_entry. by repeat case_match. Qed.

Lemma indexed_entry_common c e :
  description (StoreBuilder.indexed_entry c e) = description e
  /\ type (StoreBuilder.indexed_entry c e) = type e
  /\ category (StoreBuilder.indexed_entry c e) = Some c
  /\ scopes (StoreBuilder.indexed_entry c e) = None
  /\ similarity (StoreBuilder.indexed_entry c e) = None.
Proof. unfold StoreBuilder.indexed_entry. by repeat case_match. Qed.

Lemma built_lookup (ps : list (string * entry)) k :
  dict_get (fold_left register ps []) k
  = some_if_any
      (map (fun p => StoreBuilder.indexed_entry (fst p) (snd p))
           (List.filter (fun p => String.eqb (Py.lower (name (snd p))) k) ps)).
Proof.
  induction ps as [| p ps IH] using rev_ind; [reflexivity |].
  rewrite fold_left_app, List.filter_app, map_app. cbn [fold_left List.filter].
  unfold register at 1.
  destruct (String.eqb_spec (Py.lower (name (snd p))) k) as [-> | Hne].
  - rewrite dict_get_append_eq, IH. cbn [map].
    destruct (map _ (List.filter _ ps)); reflexivity.
  - rewrite dict_get_append_ne by exact Hne.
    cbn [map]. by rewrite app_nil_r.
Qed.

Lemma index_holds_registered_aux (sources : list (string * list entry)) (k : string) :
  dict_get (StoreBuilder.index_by_name sources) k
  = match registered sources k with
    | [] => None
    | found => Some found
    end.
Proof.
  rewrite index_by_name_tagged, registered_tagged, built_lookup.
  unfold some_if_any. by destruct (map _ _).
Qed.

(** X5: the index the Store Builder makes maps a key to the indexed form
    of exactly the parsed entries whose lowercased name is that key, in the
    order of the sources, and has no key for which there is none. *)
Theorem index_holds_registered (sources : list (string * list entry)) (k : string) :
  dict_get (StoreBuilder.index_by_name sources) k
  = match registered sources k with
    | [] => None
    | found => Some found
    end.
Proof. apply index_holds_registered_aux. Qed.

Lemma built_keys (ps : list (string * entry)) :
  NoDup (map fst (fold_left register ps []))
  /\ Forall (fun k => exists p, In p ps /\ k = Py.lower (name (snd p)))
            (map fst (fold_left register ps [])).
Proof.
  induction ps as [| p ps [IHnd IHk]] using rev_ind; [split; constructor |].
  rewrite fold_left_app. cbn [fold_left]. unfold register at 1 3.
  assert (Hweak : Forall (fun k => exists p0, In p0 (ps ++ [p])
                                            /\ k = Py.lower (name (snd p0)))
                         (map fst (fold_left register ps []))).
  { eapply Forall_impl; [exact IHk |]. cbn. intros k (p0 & Hin & Hk).
    exists p0. split; [apply in_or_app; by left | exact Hk]. }
  destruct (dict_append_keys (fold_left register ps [])
              (Py.lower (name (snd p)))
              (StoreBuilder.indexed_entry (fst p) (snd p)))
    as [[_ ->] | [Hout ->]]; [by split |].
  split.
  - apply NoDup_app. split; [exact IHnd |]. split; [| apply NoDup_singleton].
    intros k Hk Hk'. apply list_elem_of_In in Hk.
    apply list_elem_of_singleton in Hk'. by subst k.
  - apply Forall_app. split; [exact Hweak |].
    constructor; [| constructor]. exists p. split; [| reflexivity].
    apply in_or_app. right. by left.
Qed.

Lemma dict_get_In {V} (d : list (string * V)) k v :
  NoDup (map fst d) -> In (k, v) d -> dict_get d k = Some v.
Proof.
  induction d as [| [k' v'] d IH]; cbn; [tauto |].
  intros Hnd [[= -> ->] | Hin].
  - by rewrite String.eqb_refl.
  - apply NoDup_cons in Hnd as [Hk' Hnd].
    destruct (String.eqb_spec k k') as [-> | _]; [| by apply IH].
    exfalso. apply Hk'. apply list_elem_of_In.
    change k' with (fst (k', v)). by apply in_map.
Qed.

Lemma built_size (ps : list (string * entry)) :
  list_sum (map (fun kv => length (snd kv)) (fold_left register ps []))
  = length ps.
Proof.
  induction ps as [| p ps IH] using rev_ind; [reflexivity |].
  rewrite fold_left_app. cbn [fold_left]. unfold register at 1.
  rewrite dict_append_size, IH, length_app. cbn. lia.
Qed.

Lemma all_entries_tagged sources :
  StoreBuilder.all_entries sources
  = map (fun p => set_category (fst p) (snd p)) (tagged sources).
Proof.
  unfold StoreBuilder.all_entries, tagged.
  induction sources as [| [c es] sources IH]; [reflexivity |].
  cbn [flat_map]. rewrite map_app, IH, map_map. reflexivity.
Qed.

(** X6: the index the Store Builder makes has no key twice; every key is
    in lower case and is the lowercased name of each Record under it; no
    key has an empty list; and the index holds as many Records as the Flat
    Collection. *)
Theorem index_is_well_formed (sources : list (string * list entry)) :
  let idx := StoreBuilder.index_by_name sources in
  NoDup (map fst idx)
  /\ Forall (fun kv => Py.lower (fst kv) = fst kv
                       /\ snd kv <> []
                       /\ Forall (fun r => Py.lower (name r) = fst kv) (snd kv))
            idx
  /\ list_sum (map (fun kv => length (snd kv)) idx)
     = length (StoreBuilder.all_entries sources).
Proof.
  intros idx. subst idx.
  pose proof (built_keys (tagged sources)) as [Hnd Hkeys].
  split; [by rewrite index_by_name_tagged |]. split.
  - apply Forall_forall. intros [k l] Hkl. apply list_elem_of_In in Hkl. cbn [fst snd].
    assert (Hget : dict_get (StoreBuilder.index_by_name sources) k = Some l).
    { apply dict_get_In; [by rewrite index_by_name_tagged | exact Hkl]. }
    rewrite index_holds_registered_aux in Hget.
    split.
    + rewrite index_by_name_tagged in Hkl.
      rewrite Forall_forall in Hkeys.
      destruct (Hkeys k) as (p & _ & ->); [| apply lower_idempotent].
      apply list_elem_of_In. change k with (fst (k, l)). by apply in_map.
    + destruct (registered sources k) as [| r rs] eqn:Hreg; [discriminate |].
      injection Hget as <-. split; [discriminate |].
      rewrite <- Hreg, registered_tagged.
      apply Forall_forall. intros r' Hr'.
      apply list_elem_of_In, in_map_iff in Hr' as [p [<- Hp]].
      apply filter_In in Hp as [_ Hp]. apply String.eqb_eq in Hp.
      by rewrite indexed_entry_name.
  - rewrite index_by_name_tagged, built_size, all_entries_tagged.
    by rewrite length_map.
Qed.

(** ** A built store under search *)

Lemma registered_has sources c es e :
  In (c, es) sources -> In e es ->
  In (StoreBuilder.indexed_entry c e) (registered sources (Py.lower (name e))).
Proof.
  intros Hsrc He. unfold registered. apply in_flat_map.
  exists (c, es). split; [exact Hsrc |]. apply in_map.
  apply filter_In. split; [exact He | apply String.eqb_refl].
Qed.

(** X7: a handler that loads the index the Store Builder made finds every
    parsed entry by its name, in any letter case and whatever the fuzzy
    flag: the lookup returns the Records registered under the lowercased
    name, cut to the limit, and the indexed form of the entry is among the
    registered ones. *)
Theorem built_index_finds_entry (sources : list (string * list entry))
  (c : string) (es : list entry) (e : entry) (self : DataHandler.t)
  (query : string) (fuzzy : bool) (limit : Z) :
  In (c, es) sources -> In e es ->
  DataHandler.index self = StoreBuilder.index_by_name sources ->
  Py.lower query = Py.lower (name e) ->
  DataHandler.search_by_name self query fuzzy limit
  = Py.slice_to (registered sources (Py.lower (name e))) limit
  /\ In (StoreBuilder.indexed_entry c e) (registered sources (Py.lower (name e))).
Proof.
  intros Hsrc He Hidx Hq.
  pose proof (registered_has sources c es e Hsrc He) as Hreg.
  split; [| exact Hreg].
  unfold DataHandler.search_by_name.
  rewrite Hidx, Hq, index_holds_registered_aux.
  by destruct (registered sources (Py.lower (name e))).
Qed.

Lemma built_index_finds_entry_witness :
  DataHandler.search_by_name Samples.handler "Add_Gold" false 20
  = Py.slice_to (registered Samples.parsed (Py.lower "add_gold")) 20
  /\ In (StoreBuilder.indexed_entry "effects"
           (Convert.markdown_entry "add_gold" "Grants gold." ["country"; "province"] []))
        (registered Samples.parsed (Py.lower "add_gold")).
Proof.
  apply (built_index_finds_entry Samples.parsed "effects"
           [Convert.markdown_entry "add_gold" "Grants gold." ["country"; "province"] []]
           (Convert.markdown_entry "add_gold" "Grants gold." ["country"; "province"] [])
           Samples.handler "Add_Gold" false 20).
  - vm_compute. left. reflexivity.
  - left. reflexivity.
  - reflexivity.
  - vm_compute. reflexivity.
Defined.

Lemma all_entries_have_category sources :
  Forall (fun e => is_Some (category e)) (StoreBuilder.all_entries sources).
Proof.
  rewrite all_entries_tagged. apply Forall_forall. intros r Hr.
  apply list_elem_of_In, in_map_iff in Hr as [p [<- _]]. by eexists.
Qed.

(** X8: over the Flat Collection the Store Builder made, the search by
    category never raises: it returns the entries of the sources whose
    category is the asked one up to letter case, each with its category,
    in the order of the sources. *)
Theorem category_search_on_built_store (sources : list (string * list entry))
  (idx : list (string * list entry)) (c : string) :
  DataSearcher.search_by_category
    (DataSearcher.Make idx (StoreBuilder.all_entries sources)) c
  = Ok (flat_map
          (fun '(category_, entries) =>
             if String.eqb (Py.lower category_) (Py.lower c)
             then map (set_category category_) entries else [])
          sources).
Proof.
  rewrite search_by_category_ok by apply all_entries_have_category.
  f_equal. cbn [DataSearcher.all_data]. unfold StoreBuilder.all_entries.
  induction sources as [| [c' es] sources IH]; [reflexivity |].
  cbn [flat_map]. rewrite List.filter_app, IH. f_equal.
  clear. induction es as [| e es IH]; [by destruct (String.eqb _ _) |].
  cbn [map List.filter].
  change (category_matches c (set_category c' e))
    with (String.eqb (Py.lower c') (Py.lower c)).
  revert IH. destruct (String.eqb (Py.lower c') (Py.lower c)); intros IH;
    cbn [map]; by rewrite IH.
Qed.

Lemma parsed_sources_without_scopes sources :
  parsed_sources sources ->
  Forall (fun e => scopes e = None) (StoreBuilder.all_entries sources).
Proof.
  intros Hparsed. apply all_entries_without_scopes.
  eapply Forall_impl; [exact Hparsed |]. intros [c es] Hes. cbn [snd] in *.
  apply Forall_forall. intros e He. apply list_elem_of_In in He.
  apply parsers_write_no_scopes.
  destruct Hes as [[content ->] | (file_path & content & ->)]; eauto.
Qed.

(** X9: over a Flat Collection the Store Builder made from parsed sources,
    the scope search of the server finds nothing, for every scope and
    every limit, and its tool reports the count 0: the search reads the key
    [scopes], which no parsed Record carries. *)
Theorem scope_tool_is_empty_on_built_store (sources : list (string * list entry))
  (self : DataHandler.t) (scope : string) (limit : Z) :
  parsed_sources sources ->
  DataHandler.all_data self = StoreBuilder.all_entries sources ->
  DataHandler.get_data_by_scope self scope limit = []
  /\ Tools.search_by_scope (Some self) scope limit
     = Tools.Found "scope" scope None 0 [].
Proof.
  intros Hparsed Hall.
  assert (Hnone : DataHandler.get_data_by_scope self scope limit = []).
  { apply get_data_by_scope_without_scopes. rewrite Hall.
    by apply parsed_sources_without_scopes. }
  split; [exact Hnone |]. unfold Tools.search_by_scope. by rewrite Hnone.
Qed.

Lemma scope_tool_is_empty_on_built_store_witness :
  DataHandler.get_data_by_scope Samples.handler "country" 20 = []
  /\ Tools.search_by_scope (Some Samples.handler) "country" 20
     = Tools.Found "scope" "country" None 0 [].
Proof.
  apply (scope_tool_is_empty_on_built_store Samples.parsed Samples.handler
           "country" 20).
  - unfold parsed_sources, Samples.parsed.
    constructor; [right; eexists _, _; reflexivity |].
    constructor; [right; eexists _, _; reflexivity | constructor].
  - reflexivity.
Defined.

(** ** The searches of the stand-alone searcher *)

(** X10: [DataSearcher.search_by_scopes] returns a Record of the Flat
    Collection exactly when one of its supported scopes is the asked scope
    up to letter case and, with a kind filter, its kind is the asked kind up
    to letter case; a Record without the key [supported_scopes] is never
    returned; and the letter case of the two arguments does not matter. *)
Theorem searcher_scope_search_exact (self : DataSearcher.t) (scope : string)
  (entry_type : option string) :
  (forall r,
      In r (DataSearcher.search_by_scopes self scope entry_type)
      <-> In r (DataSearcher.all_data self)
          /\ (exists scs s, supported_scopes r = Some scs /\ In s scs
                            /\ Py.lower s = Py.lower scope)
          /\ (forall ty, entry_type = Some ty -> Py.lower (type r) = Py.lower ty))
  /\ DataSearcher.search_by_scopes self (Py.lower scope) (Py.lower <$> entry_type)
     = DataSearcher.search_by_scopes self scope entry_type.
Proof.
  split.
  - intros r. rewrite search_by_scopes_spec.
    split; intros (Hin & Hsc & Hty); (split; [exact Hin |]); (split; [| exact Hty]).
    + destruct Hsc as (s & Hs & Heq).
      destruct (supported_scopes r) as [scs |]; [| destruct Hs]. by exists scs, s.
    + destruct Hsc as (scs & s & Hscs & Hs & Heq). exists s. by rewrite Hscs.
  - unfold DataSearcher.search_by_scopes. rewrite lower_idempotent.
    apply filter_ext. intros e. f_equal.
    destruct entry_type as [ty |]; [| reflexivity]. cbn. by rewrite lower_idempotent.
Qed.

(** X11: the two classes answer a name lookup alike up to the cut: what
    [DataHandler.search_by_name] returns for the limit 20 is what
    [DataSearcher.search_by_name] returns, cut to 20.  [DataSearcher] does
    not cut the Records of an exact match. *)
Theorem handler_and_searcher_agree (handler : DataHandler.t)
  (searcher : DataSearcher.t) (query : string) (fuzzy : bool) :
  DataHandler.index handler = DataSearcher.index searcher ->
  DataHandler.search_by_name handler query fuzzy 20
  = Py.slice_to (fst (DataSearcher.search_by_name searcher query fuzzy)) 20.
Proof.
  intros Hidx. unfold DataHandler.search_by_name, DataSearcher.search_by_name.
  rewrite Hidx. destruct (dict_get _ _) as [entries |]; [reflexivity |].
  destruct fuzzy; cbn [negb]; [| reflexivity].
  rewrite fuzzy_loop. cbn [fst app].
  set (found := sort_desc _). unfold Py.slice_to. cbn.
  by rewrite take_take, Nat.min_id.
Qed.

Lemma handler_and_searcher_agree_witness :
  DataHandler.search_by_name Samples.handler "add_gol" true 20
  = Py.slice_to (fst (DataSearcher.search_by_name Samples.searcher "add_gol" true)) 20.
Proof.
  apply (handler_and_searcher_agree Samples.handler Samples.searcher "add_gol" true).
  reflexivity.
Defined.

Lemma marked_same_but_similarity name_lower kv :
  fst (marked name_lower kv) = fst kv
  /\ Forall2 same_but_similarity (snd kv) (snd (marked name_lower kv)).
Proof.
  unfold marked. destruct (above_threshold _); cbn [fst snd].
  - split; [reflexivity |].
    induction (snd kv) as [| e l IH]; cbn [map]; constructor; [| exact IH].
    by exists 0%Q.
  - split; [reflexivity |].
    induction (snd kv) as [| e l IH]; constructor; [| exact IH].
    by exists 0%Q.
Qed.

(** X12: a name lookup of [DataSearcher] never changes the Flat
    Collection, the keys of the index or their order, and changes no key of
    a stored Record but [similarity]; a lookup that finds the key, or that
    has the fuzzy flag off, changes nothing at all. *)
Theorem searcher_lookup_footprint (self : DataSearcher.t) (query : string)
  (fuzzy : bool) :
  let after := snd (DataSearcher.search_by_name self query fuzzy) in
  DataSearcher.all_data after = DataSearcher.all_data self
  /\ map fst (DataSearcher.index after) = map fst (DataSearcher.index self)
  /\ Forall2 (fun kv kv' => Forall2 same_but_similarity (snd kv) (snd kv'))
             (DataSearcher.index self) (DataSearcher.index after)
  /\ (dict_get (DataSearcher.index self) (Py.lower query) <> None \/ fuzzy = false ->
      after = self).
Proof.
  intros after. subst after.
  assert (Hsame : forall l : list entry, Forall2 same_but_similarity l l).
  { induction l; constructor; [by exists 0%Q | done]. }
  assert (Hrefl : Forall2 (fun kv kv' : string * list entry =>
                             Forall2 same_but_similarity (snd kv) (snd kv'))
                          (DataSearcher.index self) (DataSearcher.index self)).
  { induction (DataSearcher.index self); constructor; [apply Hsame | done]. }
  unfold DataSearcher.search_by_name.
  destruct (dict_get _ _) as [entries |] eqn:Hget; [by cbn |].
  destruct fuzzy; cbn [negb]; [| by cbn].
  rewrite fuzzy_loop. cbn [snd app DataSearcher.all_data DataSearcher.index].
  split; [reflexivity |]. split; [| split].
  - rewrite map_map. apply map_ext. intros kv.
    apply marked_same_but_similarity.
  - clear. induction (DataSearcher.index self) as [| kv idx IH]; cbn [map];
      constructor; [apply marked_same_but_similarity | exact IH].
  - intros [Hfound | Hoff]; [by destruct Hfound | discriminate Hoff].
Qed.

(** ** The fuzzy lookup of the server *)

Lemma fuzzy_results_has idx name_lower key entries e :
  In (key, entries) idx -> In e entries ->
  (6 # 10 < Difflib.ratio name_lower key)%Q ->
  In (set_similarity (Difflib.ratio name_lower key) e)
     (DataHandler.fuzzy_results idx name_lower).
Proof.
  intros Hkey He Habove. unfold DataHandler.fuzzy_results.
  apply in_flat_map. exists (key, entries). split; [exact Hkey |].
  apply Qltb_lt in Habove. unfold above_threshold. rewrite Habove.
  by apply in_map.
Qed.

(** X13: on the fuzzy path, with a limit that is at least the number of
    matches, nothing is lost: the result is a rearrangement of the copies
    the loop made, and every Record stored under a key whose ratio with the
    lowercased query is above 0.6 comes back, with that ratio attached. *)
Theorem fuzzy_lookup_is_complete (self : DataHandler.t) (query : string)
  (limit : Z) :
  dict_get (DataHandler.index self) (Py.lower query) = None ->
  (Z.of_nat (length (DataHandler.fuzzy_results (DataHandler.index self)
                       (Py.lower query))) <= limit)%Z ->
  DataHandler.search_by_name self query true limit
  ≡ₚ DataHandler.fuzzy_results (DataHandler.index self) (Py.lower query)
  /\ forall key entries e,
       In (key, entries) (DataHandler.index self) -> In e entries ->
       (6 # 10 < Difflib.ratio (Py.lower query) key)%Q ->
       In (set_similarity (Difflib.ratio (Py.lower query) key) e)
          (DataHandler.search_by_name self query true limit).
Proof.
  intros Hmiss Hlimit.
  assert (Hall : DataHandler.search_by_name self query true limit
                 = sort_desc (DataHandler.fuzzy_results (DataHandler.index self)
                                (Py.lower query))).
  { unfold DataHandler.search_by_name. rewrite Hmiss. cbn [negb].
    apply slice_to_all. by rewrite sort_desc_perm. }
  rewrite Hall. split; [apply sort_desc_perm |].
  intros key entries e Hkey He Habove.
  apply list_elem_of_In. rewrite sort_desc_perm. apply list_elem_of_In.
  by apply fuzzy_results_has with entries.
Qed.

Lemma fuzzy_lookup_is_complete_witness :
  DataHandler.search_by_name Samples.handler "add_gol" true 20
  ≡ₚ DataHandler.fuzzy_results (DataHandler.index Samples.handler) (Py.lower "add_gol")
  /\ forall key entries e,
       In (key, entries) (DataHandler.index Samples.handler) -> In e entries ->
       (6 # 10 < Difflib.ratio (Py.lower "add_gol") key)%Q ->
       In (set_similarity (Difflib.ratio (Py.lower "add_gol") key) e)
          (DataHandler.search_by_name Samples.handler "add_gol" true 20).
Proof.
  apply (fuzzy_lookup_is_complete Samples.handler "add_gol" 20).
  - vm_compute. reflexivity.
  - vm_compute. discriminate.
Defined.

(** X14: on the fuzzy path, with a limit that is at least the number of
    matches, Records of equal similarity come back in the order in which
    the index holds them: keys in index order and, under one key, Records
    in list order. *)
Theorem fuzzy_lookup_keeps_tie_order (self : DataHandler.t) (query : string)
  (limit : Z) (s : Q) :
  dict_get (DataHandler.index self) (Py.lower query) = None ->
  (Z.of_nat (length (DataHandler.fuzzy_results (DataHandler.index self)
                       (Py.lower query))) <= limit)%Z ->
  List.filter (fun r => Qeq_bool (similarity_key r) s)
              (DataHandler.search_by_name self query true limit)
  = List.filter (fun r => Qeq_bool (similarity_key r) s)
                (DataHandler.fuzzy_results (DataHandler.index self) (Py.lower query)).
Proof.
  intros Hmiss Hlimit.
  unfold DataHandler.search_by_name. rewrite Hmiss. cbn [negb].
  rewrite slice_to_all by (by rewrite sort_desc_perm).
  apply sort_desc_stable.
Qed.

Lemma fuzzy_lookup_keeps_tie_order_witness :
  List.filter (fun r => Qeq_bool (similarity_key r) (14 # 15))
              (DataHandler.search_by_name Samples.handler "add_gol" true 20)
  = List.filter (fun r => Qeq_bool (similarity_key r) (14 # 15))
                (DataHandler.fuzzy_results (DataHandler.index Samples.handler)
                   (Py.lower "add_gol")).
Proof.
  apply (fuzzy_lookup_keeps_tie_order Samples.handler "add_gol" 20 (14 # 15)).
  - vm_compute. reflexivity.
  - vm_compute. discriminate.
Defined.

(** ** The free-text and kind searches of the server *)

Lemma mentions_spec query r :
  DataHandler.mentions (Py.lower query) r = true <-> mentioned_in query r.
Proof. unfold DataHandler.mentions, mentioned_in. apply orb_true_iff. Qed.

Lemma free_text_searches_unfold (self : DataHandler.t) :
  Forall (fun sc => forall query limit,
              fst sc query limit
              = Py.slice_to
                  (List.filter (DataHandler.mentions (Py.lower query)) (snd sc))
                  limit)
         (free_text_searches self).
Proof. repeat constructor. Qed.

(** X15: each of the four free-text searches returns only Records of its
    own list in which the query occurs, up to letter case, in the name or
    in the description; and with a limit that is at least the length of
    that list it returns all of them. *)
Theorem free_text_search_is_exact (self : DataHandler.t) (query : string)
  (limit : Z) :
  Forall (fun sc =>
            Forall (fun r => In r (snd sc) /\ mentioned_in query r)
                   (fst sc query limit)
            /\ ((Z.of_nat (length (snd sc)) <= limit)%Z ->
                forall r, In r (snd sc) -> mentioned_in query r ->
                          In r (fst sc query limit)))
         (free_text_searches self).
Proof.
  eapply Forall_impl; [apply free_text_searches_unfold |].
  cbn beta. intros [search scanned] Hsearch. cbn [fst snd] in *.
  rewrite Hsearch. split.
  - apply slice_to_Forall, Forall_forall. intros r Hr.
    apply list_elem_of_In, filter_In in Hr as [Hin Hr].
    split; [exact Hin | by apply mentions_spec].
  - intros Hlimit r Hin Hr. rewrite slice_to_all.
    + apply filter_In. split; [exact Hin | by apply mentions_spec].
    + pose proof (List.filter_length_le
                    (DataHandler.mentions (Py.lower query)) scanned). lia.
Qed.

(** X16: for each of the four free-text searches the letter case of the
    query does not matter, and the empty query matches every Record: it
    returns the scanned list cut to the limit. *)
Theorem free_text_search_edges (self : DataHandler.t) (query : string)
  (limit : Z) :
  Forall (fun sc =>
            fst sc (Py.lower query) limit = fst sc query limit
            /\ fst sc "" limit = Py.slice_to (snd sc) limit)
         (free_text_searches self).
Proof.
  eapply Forall_impl; [apply free_text_searches_unfold |].
  cbn beta. intros [search scanned] Hsearch. cbn [fst snd] in *.
  rewrite !Hsearch, lower_idempotent. split; [reflexivity |].
  f_equal. cbn [Py.lower]. clear.
  induction scanned as [| r l IH]; [reflexivity |].
  cbn [List.filter]. unfold DataHandler.mentions at 1.
  rewrite contains_empty. cbn [orb]. by rewrite IH.
Qed.

(** X17: the kind search returns only Records whose kind is the asked
    string letter for letter, in the order of the Flat Collection; a kind
    that no Record has gives the empty list for every limit; and with a
    limit that is at least the length of the collection every Record of the
    kind is returned. *)
Theorem kind_search_is_exact (self : DataHandler.t) (data_type : string)
  (limit : Z) :
  let found := DataHandler.get_data_by_type self data_type limit in
  Forall (fun r => In r (DataHandler.all_data self) /\ type r = data_type) found
  /\ (Forall (fun r => type r <> data_type) (DataHandler.all_data self) ->
      found = [])
  /\ ((Z.of_nat (length (DataHandler.all_data self)) <= limit)%Z ->
      found = List.filter (fun r => String.eqb (type r) data_type)
                          (DataHandler.all_data self)).
Proof.
  intros found. subst found. unfold DataHandler.get_data_by_type.
  split; [| split].
  - apply slice_to_Forall, Forall_forall. intros r Hr.
    apply list_elem_of_In, filter_In in Hr as [Hin Hr].
    split; [exact Hin | by apply String.eqb_eq].
  - intros Hnone.
    replace (List.filter _ _) with (@nil entry).
    + unfold Py.slice_to. destruct (limit <? 0)%Z; by rewrite take_nil.
    + symmetry. induction Hnone as [| r l Hr _ IH]; [reflexivity |].
      cbn [List.filter]. apply String.eqb_neq in Hr. by rewrite Hr.
  - intros Hlimit. apply slice_to_all.
    pose proof (List.filter_length_le
                  (fun r => String.eqb (type r) data_type)
                  (DataHandler.all_data self)). lia.
Qed.

(** ** Missing keys under the stand-alone searcher *)

Lemma filter_checked_error (key : string) (p : entry -> result bool) l :
  (forall e, (exists b, p e = Ok b) \/ p e = KeyError key) ->
  Exists (fun e => p e = KeyError key) l ->
  filter_checked p l = KeyError key.
Proof.
  intros Hp. induction 1 as [e l He | e l _ IH]; cbn [filter_checked].
  - by rewrite He.
  - destruct (Hp e) as [[b ->] | ->]; [| reflexivity].
    cbn [bind]. by rewrite IH.
Qed.

Lemma category_is_cases c e :
  (exists b, DataSearcher.category_is c e = Ok b)
  \/ DataSearcher.category_is c e = KeyError "category".
Proof.
  unfold DataSearcher.category_is. destruct (category e); cbn; eauto.
Qed.

Lemma return_type_is_cases rt e :
  (exists b, DataSearcher.return_type_is rt e = Ok b)
  \/ DataSearcher.return_type_is rt e = KeyError "return_type".
Proof.
  unfold DataSearcher.return_type_is. destruct (return_type e); cbn; eauto.
Qed.

Lemma has_or_lacks {A} (get : entry -> option A) l :
  Forall (fun e => is_Some (get e)) l \/ Exists (fun e => get e = None) l.
Proof.
  induction l as [| e l [IH | IH]]; [left; constructor | |].
  - destruct (get e) eqn:He; [left | right; by left].
    constructor; [by rewrite He | exact IH].
  - right. by right.
Qed.

(** X18: the search by category reads the key [category] of every Record
    of the Flat Collection.  When every Record carries it, the search
    returns the Records whose category is the asked one up to letter case,
    in the order of the collection; when some Record lacks it, the search
    raises [KeyError] for that key, whatever the asked category. *)
Theorem category_search_needs_the_key (self : DataSearcher.t) (c : string) :
  (Forall (fun e => is_Some (category e)) (DataSearcher.all_data self)
   /\ DataSearcher.search_by_category self c
      = Ok (List.filter (category_matches c) (DataSearcher.all_data self)))
  \/ (Exists (fun e => category e = None) (DataSearcher.all_data self)
      /\ DataSearcher.search_by_category self c = KeyError "category").
Proof.
  destruct (has_or_lacks category (DataSearcher.all_data self)) as [Hall | Hsome].
  - left. split; [exact Hall | by apply search_by_category_ok].
  - right. split; [exact Hsome |].
    apply filter_checked_error; [apply category_is_cases |].
    eapply Exists_impl; [exact Hsome |]. cbn beta. intros e He.
    unfold DataSearcher.category_is. by rewrite He.
Qed.

Lemma advanced_search_steps (self : DataSearcher.t) (kwargs : gmap string string) :
  fst (DataSearcher.advanced_search self kwargs)
  = bind (match kwargs !! "return_type" with
          | Some rt => filter_checked (DataSearcher.return_type_is rt)
                                      (name_narrowed self kwargs)
          | None => Ok (name_narrowed self kwargs)
          end) (fun results =>
    bind (match kwargs !! "category" with
          | Some c => filter_checked (DataSearcher.category_is c) results
          | None => Ok results
          end) (fun results =>
    Ok (match kwargs !! "description" with
        | Some d => List.filter (DataSearcher.description_has (Py.lower d)) results
        | None => results
        end)))
  /\ snd (DataSearcher.advanced_search self kwargs)
     = match kwargs !! "name" with
       | Some nm => snd (DataSearcher.search_by_name self nm true)
       | None => self
       end.
Proof.
  unfold DataSearcher.advanced_search, name_narrowed, named_by.
  destruct (kwargs !! "name") as [nm |].
  - destruct (DataSearcher.search_by_name self nm true) as [found self'].
    split; reflexivity.
  - cbn [fst snd]. by rewrite filter_true.
Qed.

(** X19: composite search with a [return_type] filter raises [KeyError]
    for that key as soon as a Record that the name filter lets through
    (every Record, when no name is given) has no key [return_type].  The
    single-filter search by return type reads the key with a default and
    returns a list for the same collection. *)
Theorem composite_search_needs_return_type (self : DataSearcher.t)
  (kwargs : gmap string string) (rt : string) :
  kwargs !! "return_type" = Some rt ->
  Exists (fun e => return_type e = None) (name_narrowed self kwargs) ->
  fst (DataSearcher.advanced_search self kwargs) = KeyError "return_type"
  /\ Forall (fun r => Py.lower (default "" (return_type r)) = Py.lower rt)
            (DataSearcher.search_by_type self rt).
Proof.
  intros Hrt Hlacks. split.
  - rewrite (proj1 (advanced_search_steps self kwargs)), Hrt.
    rewrite (filter_checked_error "return_type");
      [reflexivity | apply return_type_is_cases |].
    eapply Exists_impl; [exact Hlacks |]. cbn beta. intros e He.
    unfold DataSearcher.return_type_is. by rewrite He.
  - apply Forall_forall. intros r Hr.
    apply list_elem_of_In, filter_In in Hr as [_ Hr]. by apply String.eqb_eq.
Qed.

Lemma composite_search_needs_return_type_witness :
  fst (DataSearcher.advanced_search Samples.army_searcher
         (<["return_type" := "int"]> ∅)) = KeyError "return_type"
  /\ Forall (fun r => Py.lower (default "" (return_type r)) = Py.lower "int")
            (DataSearcher.search_by_type Samples.army_searcher "int").
Proof.
  apply (composite_search_needs_return_type Samples.army_searcher
           (<["return_type" := "int"]> ∅) "int").
  - vm_compute. reflexivity.
  - vm_compute. left. reflexivity.
Defined.

(** X21: the search by return type never raises: a Record without the key
    [return_type] counts as one whose return type is empty.  So the empty
    query returns exactly the Records that have no return type or an empty
    one, and any other query returns only Records that carry the key. *)
Theorem type_search_defaults_to_empty (self : DataSearcher.t) (rt : string) :
  (forall r,
      In r (DataSearcher.search_by_type self "")
      <-> In r (DataSearcher.all_data self)
          /\ (return_type r = None \/ return_type r = Some ""))
  /\ (rt <> "" ->
      Forall (fun r => exists v, return_type r = Some v
                                 /\ Py.lower v = Py.lower rt)
             (DataSearcher.search_by_type self rt)).
Proof.
  split.
  - intros r. unfold DataSearcher.search_by_type. rewrite filter_In.
    cbn [Py.lower]. rewrite String.eqb_eq, lower_empty.
    split; intros [Hin Hr]; (split; [exact Hin |]).
    + destruct (return_type r) as [v |]; [right | by left].
      cbn in Hr. by rewrite Hr.
    + by destruct Hr as [-> | ->].
  - intros Hrt. apply Forall_forall. intros r Hr.
    apply list_elem_of_In, filter_In in Hr as [_ Hr]. apply String.eqb_eq in Hr.
    destruct (return_type r) as [v |]; [by exists v |].
    cbn in Hr. symmetry in Hr. apply (proj1 (lower_empty rt)) in Hr. contradiction.
Qed.

(** ** Resources, tools and statistics *)

Lemma slice_to_hundred {A} (l : list A) : Py.slice_to l 100 = take 100 l.
Proof. reflexivity. Qed.

(** X22: each listing resource but the one of the event targets shows the
    number of all Records of its list and, as data, only the first hundred
    of them; the resource of the event targets shows its whole list.  So
    in every listing the data are never more than the count says, and they
    are all the Records when there are at most a hundred.  Without a handler each resource answers the
    error of the handler that is not initialized. *)
Theorem listings_show_first_hundred (h : DataHandler.t) :
  first_hundred (DataHandler.modifiers h) (Resources.get_all_modifiers (Some h))
  /\ first_hundred (DataHandler.effects h) (Resources.get_all_effects (Some h))
  /\ first_hundred (DataHandler.triggers h) (Resources.get_all_triggers (Some h))
  /\ first_hundred (DataHandler.get_data_types_by_category h "common")
                   (Resources.get_data_types_common (Some h))
  /\ first_hundred (DataHandler.get_data_types_by_category h "gui")
                   (Resources.get_data_types_gui (Some h))
  /\ first_hundred (DataHandler.get_data_types_by_category h "script")
                   (Resources.get_data_types_script (Some h))
  /\ Resources.get_all_event_targets (Some h)
     = Resources.Listing "event_targets" (length (DataHandler.event_targets h))
                         (DataHandler.event_targets h)
  /\ Forall (fun p => exists type_ count data,
                 p = Resources.Listing type_ count data
                 /\ length data <= count
                 /\ (count <= 100 -> length data = count))
            (Resources.listings (Some h))
  /\ Forall (fun p => p = Resources.not_initialized) (Resources.listings None).
Proof.
  assert (Hfirst : forall (full : list entry) p,
             first_hundred full p ->
             exists type_ count data,
               p = Resources.Listing type_ count data
               /\ length data <= count
               /\ (count <= 100 -> length data = count)).
  { intros full p [type_ ->]. eexists _, _, _. split; [reflexivity |].
    rewrite length_take. lia. }
  assert (Hm : first_hundred (DataHandler.modifiers h)
                 (Resources.get_all_modifiers (Some h))) by (by eexists).
  assert (He : first_hundred (DataHandler.effects h)
                 (Resources.get_all_effects (Some h))) by (by eexists).
  assert (Ht : first_hundred (DataHandler.triggers h)
                 (Resources.get_all_triggers (Some h))) by (by eexists).
  assert (Hc : first_hundred (DataHandler.get_data_types_by_category h "common")
                 (Resources.get_data_types_common (Some h))) by (by eexists).
  assert (Hg : first_hundred (DataHandler.get_data_types_by_category h "gui")
                 (Resources.get_data_types_gui (Some h))) by (by eexists).
  assert (Hs : first_hundred (DataHandler.get_data_types_by_category h "script")
                 (Resources.get_data_types_script (Some h))) by (by eexists).
  repeat (split; [assumption || reflexivity |]).
  split; [| repeat constructor].
  unfold Resources.listings.
  repeat (apply Forall_cons; split); try apply Forall_nil_2; eauto.
  eexists _, _, _. split; [reflexivity |]. lia.
Qed.

Lemma search_by_name_length (self : DataHandler.t) name fuzzy limit :
  (0 <= limit)%Z ->
  (Z.of_nat (length (DataHandler.search_by_name self name fuzzy limit)) <= limit)%Z.
Proof.
  intros Hlimit. unfold DataHandler.search_by_name.
  destruct (dict_get _ _); [by apply slice_to_length |].
  destruct fuzzy; cbn [negb]; [by apply slice_to_length | cbn; lia].
Qed.

(** X23: every tool that takes a limit reports as count the number of the
    Records it returns, and for a limit of 0 or more that number is at most
    the limit; without a handler every tool answers the error of the
    handler that is not initialized. *)
Theorem tools_count_their_results (h : DataHandler.t) (name : string)
  (fuzzy : bool) (query : string) (limit : Z) :
  Forall (fun p => exists key value flag results,
              p = Tools.Found key value flag (length results) results
              /\ ((0 <= limit)%Z -> (Z.of_nat (length results) <= limit)%Z))
         (limited_tools (Some h) name fuzzy query limit)
  /\ Forall (fun p => p = Tools.not_initialized)
            (limited_tools None name fuzzy query limit).
Proof.
  split; [| repeat constructor].
  unfold limited_tools.
  repeat (apply Forall_cons; split); try apply Forall_nil_2;
    (eexists _, _, _, _; split; [reflexivity |]);
    first [apply search_by_name_length | apply slice_to_length].
Qed.

(** X24: the statistics count the store as it is loaded: the total is the
    length of the Flat Collection; the number of data types is the number
    of Records the kind search finds for ['data_type'] with the total as
    limit, so at most the total; the categories of data types are the five
    fixed names in their order, each with the number of Records that
    [get_data_types_by_category] returns for it, which is 0 for a category
    that was not loaded. *)
Theorem statistics_count_the_store (self : DataHandler.t) :
  let st := DataHandler.get_statistics self in
  DataHandler.Stats.total_entries st = length (DataHandler.all_data self)
  /\ DataHandler.Stats.data_types st
     = length (DataHandler.get_data_by_type self "data_type"
                 (Z.of_nat (DataHandler.Stats.total_entries st)))
  /\ DataHandler.Stats.data_types st <= DataHandler.Stats.total_entries st
  /\ map fst (DataHandler.Stats.data_type_categories st)
     = ["common"; "gui"; "internalclausewitzgui"; "script"; "uncategorized"]
  /\ Forall (fun kv => snd kv
                       = length (DataHandler.get_data_types_by_category self (fst kv))
                       /\ (dict_get (DataHandler.data_types_by_category self) (fst kv)
                           = None -> snd kv = 0))
            (DataHandler.Stats.data_type_categories st).
Proof.
  intros st. subst st. unfold DataHandler.get_statistics.
  cbn [DataHandler.Stats.total_entries DataHandler.Stats.data_types
       DataHandler.Stats.data_type_categories].
  pose proof (List.filter_length_le
                (fun item => String.eqb (type item) "data_type")
                (DataHandler.all_data self)) as Hle.
  split; [reflexivity |]. split; [| split; [exact Hle | split; [reflexivity |]]].
  - unfold DataHandler.get_data_by_type. rewrite slice_to_all; [reflexivity | lia].
  - cbn [map].
    repeat (apply Forall_cons;
            split; [split; [reflexivity
                           | cbn [fst snd]; intros Hnone; by rewrite Hnone] |]).
    apply Forall_nil_2.
Qed.
